(** * Stop_Watch.c: an interrupt-driven stop watch on an AVR micro-controller

    A shallow embedding of [Stop_Watch.c]: the three 8-bit counters, the
    I/O registers the program touches, the four interrupt service routines,
    the initialisation functions, the body of the [while(1)] loop of [main]
    and the three display routines.  Every C statement is a state
    transformer; an assignment to a [uint8_t] object or to an 8-bit I/O
    register truncates the [int] value of its right-hand side to 8 bits. *)

From Stdlib Require Import ZArith Lia Bool List.
From stdpp Require Import base decidable countable numbers option list gmap.

Local Open Scope Z_scope.

(** ** Machine integers *)

(** [unsigned char] and the 8-bit registers keep the low eight bits of what
    is stored into them; [TCNT1] and [OCR1A] are 16 bits wide. *)
Definition wrap (w : Z) (v : Z) : Z := v mod 2 ^ w.
Definition wrap8 (v : Z) : Z := wrap 8 v.

(** ** The I/O registers named in the source *)

Inductive reg : Set :=
  | GIFR | TCCR1A | TCCR1B | TCNT1 | OCR1A | TIMSK | TIFR
  | MCUCR | MCUCSR | GICR | SREG
  | DDRA | DDRB | DDRC | DDRD
  | PORTA | PORTB | PORTC | PORTD.

#[global] Instance reg_eq_dec : EqDecision reg.
Proof. solve_decision. Defined.

Definition reg_index (r : reg) : nat :=
  match r with
  | GIFR => 0 | TCCR1A => 1 | TCCR1B => 2 | TCNT1 => 3 | OCR1A => 4
  | TIMSK => 5 | TIFR => 6 | MCUCR => 7 | MCUCSR => 8 | GICR => 9
  | SREG => 10 | DDRA => 11 | DDRB => 12 | DDRC => 13 | DDRD => 14
  | PORTA => 15 | PORTB => 16 | PORTC => 17 | PORTD => 18
  end%nat.

Definition reg_of_index (n : nat) : reg :=
  match n with
  | 0 => GIFR | 1 => TCCR1A | 2 => TCCR1B | 3 => TCNT1 | 4 => OCR1A
  | 5 => TIMSK | 6 => TIFR | 7 => MCUCR | 8 => MCUCSR | 9 => GICR
  | 10 => SREG | 11 => DDRA | 12 => DDRB | 13 => DDRC | 14 => DDRD
  | 15 => PORTA | 16 => PORTB | 17 => PORTC | _ => PORTD
  end%nat.

#[global] Instance reg_countable : Countable reg.
Proof.
  apply (inj_countable' reg_index reg_of_index).
  intros []; reflexivity.
Defined.

Definition reg_width (r : reg) : Z :=
  match r with
  | TCNT1 | OCR1A => 16
  | _ => 8
  end.

(** ** Bit names of the device header

    [<avr/io.h>] is the toolchain's header, not a file of the program: the
    bit numbers it gives to the names used by [Stop_Watch.c] are parameters
    of the development.  [CS11] occurs in the source only in comments
    ("CS10=0 CS11=0 CS12=0", "CS10=1 CS11=0 CS12=1"); it is the third
    clock-select bit of [TCCR1B].  [SREG_I] is the global interrupt enable
    bit that [sei()] sets.  The only facts assumed of the header are that
    the four names of [TCCR1B] bits are bit numbers of an 8-bit register
    and that [CS11] is none of the three bits the program sets. *)
Class IoHeader : Type := {
  INTF0 : Z; INTF1 : Z; INTF2 : Z;
  CS10 : Z; CS11 : Z; CS12 : Z; WGM12 : Z;
  OCF1A : Z; FOC1A : Z; OCIE1A : Z;
  ISC01 : Z; ISC10 : Z; ISC11 : Z; ISC2 : Z;
  INT0 : Z; INT1 : Z; INT2 : Z;
  PD2 : Z; PD3 : Z; PB2 : Z;
  SREG_I : Z;
  CS10_bit : 0 <= CS10 < 8;
  CS11_bit : 0 <= CS11 < 8;
  CS12_bit : 0 <= CS12 < 8;
  WGM12_bit : 0 <= WGM12 < 8;
  CS11_CS10 : CS11 <> CS10;
  CS11_CS12 : CS11 <> CS12;
  CS11_WGM12 : CS11 <> WGM12
}.

(** The numbering of the ATmega16/ATmega32 header, used for the concrete
    runs below. *)
Definition atmega32 : IoHeader.
Proof.
  refine {|
    INTF0 := 6; INTF1 := 7; INTF2 := 5;
    CS10 := 0; CS11 := 1; CS12 := 2; WGM12 := 3;
    OCF1A := 4; FOC1A := 3; OCIE1A := 4;
    ISC01 := 1; ISC10 := 2; ISC11 := 3; ISC2 := 6;
    INT0 := 6; INT1 := 7; INT2 := 5;
    PD2 := 2; PD3 := 3; PB2 := 2;
    SREG_I := 7
  |}; lia.
Defined.

(** ** Program state *)

(** The three globals of the source and the register file.  A register that
    was never written reads as 0.  Registers are storage cells: what the
    hardware does to them on its own (a flag bit cleared by writing a one to
    it, [TCNT1] counting) is outside the model. *)
Record state : Type := mkState {
  g_seconds : Z;
  g_minutes : Z;
  g_hours : Z;
  io : gmap reg Z
}.

Definition counters (st : state) : Z * Z * Z :=
  (g_seconds st, g_minutes st, g_hours st).

Definition read (r : reg) (st : state) : Z := default 0 (io st !! r).

Definition write (r : reg) (v : Z) (st : state) : state :=
  {| g_seconds := g_seconds st; g_minutes := g_minutes st;
     g_hours := g_hours st; io := <[r := wrap (reg_width r) v]> (io st) |}.

(** At power-on the globals are zero-initialised; the registers hold
    whatever the hardware left in them. *)
Definition power_on (regs : gmap reg Z) : state :=
  {| g_seconds := 0; g_minutes := 0; g_hours := 0; io := regs |}.

(** A state is well typed when every object holds a value of its C type. *)
Definition byte_range (v : Z) : bool := (0 <=? v) && (v <? 256).

Definition reg_range (r : reg) (v : Z) : bool :=
  (0 <=? v) && (v <? 2 ^ reg_width r).

Definition all_regs : list reg :=
  [GIFR; TCCR1A; TCCR1B; TCNT1; OCR1A; TIMSK; TIFR; MCUCR; MCUCSR; GICR;
   SREG; DDRA; DDRB; DDRC; DDRD; PORTA; PORTB; PORTC; PORTD].

Definition well_typed (st : state) : bool :=
  byte_range (g_seconds st) && byte_range (g_minutes st)
  && byte_range (g_hours st)
  && forallb (fun r => reg_range r (read r st)) all_regs.

(** ** Statements *)

Definition cmd : Type := state -> state.

(** A statement that takes well-typed states to well-typed states. *)
Definition preserves_typing (c : cmd) : Prop :=
  forall st, well_typed st = true -> well_typed (c st) = true.

Definition seq (c1 c2 : cmd) : cmd := fun st => c2 (c1 st).

Declare Scope cmd_scope.
Delimit Scope cmd_scope with cmd.
Bind Scope cmd_scope with cmd.
Notation "c1 ;; c2" := (seq c1 c2)
  (at level 100, c2 at level 200, right associativity) : cmd_scope.

(** [r = e], [r |= m] and [r &= m] on an I/O register. *)
Definition reg_assign (r : reg) (e : state -> Z) : cmd :=
  fun st => write r (e st) st.
Definition reg_or (r : reg) (m : Z) : cmd :=
  reg_assign r (fun st => Z.lor (read r st) m).
Definition reg_and (r : reg) (m : Z) : cmd :=
  reg_assign r (fun st => Z.land (read r st) m).

(** Assignments to the three [uint8_t] globals. *)
Definition seconds_assign (e : state -> Z) : cmd :=
  fun st => {| g_seconds := wrap8 (e st); g_minutes := g_minutes st;
               g_hours := g_hours st; io := io st |}.
Definition minutes_assign (e : state -> Z) : cmd :=
  fun st => {| g_seconds := g_seconds st; g_minutes := wrap8 (e st);
               g_hours := g_hours st; io := io st |}.
Definition hours_assign (e : state -> Z) : cmd :=
  fun st => {| g_seconds := g_seconds st; g_minutes := g_minutes st;
               g_hours := wrap8 (e st); io := io st |}.

(** [if (c) { body }] without an [else]. *)
Definition when (c : state -> bool) (body : cmd) : cmd :=
  fun st => if c st then body st else st.

(** [_delay_us] only lets time pass. *)
Definition _delay_us (us : Z) : cmd := fun st => st.

(** [1 << n] *)
Definition bit (n : Z) : Z := Z.shiftl 1 n.

Section Program.
Context {hdr : IoHeader}.
Local Open Scope cmd_scope.

(** ** Interrupt service routines *)

(** [ISR(INT0_vect)]: reset. *)
Definition ISR_INT0_vect : cmd :=
  reg_or GIFR (bit INTF0) ;;
  seconds_assign (fun _ => 0) ;;
  minutes_assign (fun _ => 0) ;;
  hours_assign (fun _ => 0).

(** [ISR(INT1_vect)]: pause. *)
Definition ISR_INT1_vect : cmd :=
  reg_or GIFR (bit INTF1) ;;
  reg_and TCCR1B (Z.lnot (bit CS10)) ;;
  reg_and TCCR1B (Z.lnot (bit CS12)).

(** [ISR(INT2_vect)]: resume. *)
Definition ISR_INT2_vect : cmd :=
  reg_or GIFR (bit INTF2) ;;
  reg_or TCCR1B (Z.lor (bit CS10) (bit CS12)).

(** [ISR(TIMER1_COMPA_vect)]: the one-second tick. *)
Definition ISR_TIMER1_COMPA_vect : cmd :=
  reg_or TIFR (bit OCF1A) ;;
  seconds_assign (fun st => g_seconds st + 1).

(** ** Initialisation functions *)

Definition INT0_Init : cmd :=
  reg_and DDRD (Z.lnot (bit PD2)) ;;
  reg_or PORTD (bit PD2) ;;
  reg_or MCUCR (bit ISC01) ;;
  reg_or GICR (bit INT0).

Definition INT1_Init : cmd :=
  reg_and DDRD (Z.lnot (bit PD3)) ;;
  reg_or MCUCR (Z.lor (bit ISC10) (bit ISC11)) ;;
  reg_or GICR (bit INT1).

Definition INT2_Init : cmd :=
  reg_and DDRB (Z.lnot (bit PB2)) ;;
  reg_or PORTB (bit PB2) ;;
  reg_and MCUCSR (Z.lnot (bit ISC2)) ;;
  reg_or GICR (bit INT2).

Definition TIMER1_CTC_Init : cmd :=
  reg_or TCCR1A (bit FOC1A) ;;
  reg_or TCCR1B (Z.lor (Z.lor (bit WGM12) (bit CS10)) (bit CS12)) ;;
  reg_assign TCNT1 (fun _ => 0) ;;
  reg_assign OCR1A (fun _ => 976) ;;
  reg_or TIMSK (bit OCIE1A).

(** [sei()] *)
Definition sei : cmd := reg_or SREG (bit SREG_I).

(** ** Display routines

    Each routine is two halves, each ending in [_delay_us(10)]: the first
    drives the ones digit, the second the tens digit. *)

Definition Display_Seconds_ones : cmd :=
  reg_assign PORTA (fun st => Z.lor (Z.land (read PORTA st) 0xC0) 0x01) ;;
  reg_assign PORTC
    (fun st => Z.lor (Z.land (read PORTC st) 0xF0) (Z.rem (g_seconds st) 10)) ;;
  _delay_us 10.

Definition Display_Seconds_tens : cmd :=
  reg_assign PORTA (fun st => Z.lor (Z.land (read PORTA st) 0xC0) 0x02) ;;
  reg_assign PORTC
    (fun st => Z.lor (Z.land (read PORTC st) 0xF0) (Z.quot (g_seconds st) 10)) ;;
  _delay_us 10.

Definition Display_Seconds : cmd :=
  Display_Seconds_ones ;; Display_Seconds_tens.

Definition Display_Minutes_ones : cmd :=
  reg_assign PORTA (fun st => Z.lor (Z.land (read PORTA st) 0xC0) 0x04) ;;
  reg_assign PORTC
    (fun st => Z.lor (Z.land (read PORTC st) 0xF0) (Z.rem (g_minutes st) 10)) ;;
  _delay_us 10.

Definition Display_Minutes_tens : cmd :=
  reg_assign PORTA (fun st => Z.lor (Z.land (read PORTA st) 0xC0) 0x08) ;;
  reg_assign PORTC
    (fun st => Z.lor (Z.land (read PORTC st) 0xF0) (Z.quot (g_minutes st) 10)) ;;
  _delay_us 10.

Definition Display_Minutes : cmd :=
  Display_Minutes_ones ;; Display_Minutes_tens.

Definition Display_Hours_ones : cmd :=
  reg_assign PORTA (fun st => Z.lor (Z.land (read PORTA st) 0xC0) 0x10) ;;
  reg_assign PORTC
    (fun st => Z.lor (Z.land (read PORTC st) 0xF0) (Z.rem (g_hours st) 10)) ;;
  _delay_us 10.

Definition Display_Hours_tens : cmd :=
  reg_assign PORTA (fun st => Z.lor (Z.land (read PORTA st) 0xC0) 0x20) ;;
  reg_assign PORTC
    (fun st => Z.lor (Z.land (read PORTC st) 0xF0) (Z.quot (g_hours st) 10)) ;;
  _delay_us 10.

Definition Display_Hours : cmd :=
  Display_Hours_ones ;; Display_Hours_tens.

(** ** [main] *)

(** The statements of [main] before the loop. *)
Definition main_init : cmd :=
  reg_or DDRC 0x0F ;;
  reg_or DDRA 0x3F ;;
  sei ;;
  INT0_Init ;;
  INT1_Init ;;
  INT2_Init ;;
  TIMER1_CTC_Init.

(** The three [if]s at the head of the loop body. *)
Definition carry_normalization : cmd :=
  when (fun st => g_seconds st =? 60)
    (seconds_assign (fun _ => 0) ;;
     minutes_assign (fun st => g_minutes st + 1)) ;;
  when (fun st => g_minutes st =? 60)
    (minutes_assign (fun _ => 0) ;;
     hours_assign (fun st => g_hours st + 1)) ;;
  when (fun st => g_hours st =? 60)
    (hours_assign (fun _ => 0)).

(** One iteration of [while(1)]. *)
Definition main_loop_body : cmd :=
  carry_normalization ;;
  Display_Seconds ;;
  Display_Minutes ;;
  Display_Hours.

End Program.

(** ** The environment: timer hardware and events *)

Section Environment.
Context {hdr : IoHeader}.

(** Timer 1 counts while its clock-select bits are not all zero (the
    source: "Clear the timer clock bits (CS10=0 CS11=0 CS12=0) to stop the
    timer clock"). *)
Definition timer_running (st : state) : bool :=
  Z.testbit (read TCCR1B st) CS10
  || Z.testbit (read TCCR1B st) CS11
  || Z.testbit (read TCCR1B st) CS12.

(** One timer period of real time: the compare-match interrupt is raised,
    and its routine runs, only if the timer is counting. *)
Definition timer_period : cmd :=
  when timer_running ISR_TIMER1_COMPA_vect.

(** What can happen between two observations of the state: one of the four
    interrupt routines runs, or [main] completes one iteration of its
    loop. *)
Inductive event : Set :=
  | EvReset | EvPause | EvResume | EvTick | EvLoop.

Definition step (e : event) : cmd :=
  match e with
  | EvReset => ISR_INT0_vect
  | EvPause => ISR_INT1_vect
  | EvResume => ISR_INT2_vect
  | EvTick => ISR_TIMER1_COMPA_vect
  | EvLoop => main_loop_body
  end.

Fixpoint run (tr : list event) (st : state) : state :=
  match tr with
  | [] => st
  | e :: tr' => run tr' (step e st)
  end.

(** At most one tick between two successive loop iterations; [ticked]
    tells whether a tick has happened since the last one. *)
Fixpoint paced (ticked : bool) (tr : list event) : bool :=
  match tr with
  | [] => true
  | EvTick :: tr' => negb ticked && paced true tr'
  | EvLoop :: tr' => paced false tr'
  | _ :: tr' => paced ticked tr'
  end.

(** The state in which [main] enters its loop, from power-on state [pwr]. *)
Definition startup (pwr : state) : state := main_init pwr.

End Environment.

(** ** Vocabulary of the specification *)

(** The three fields of the clock, their counter, their display routine and
    the two display positions (bits of the enable bus [PORTA]) that the
    routine drives. *)
Inductive field : Set := Seconds | Minutes | Hours.

Definition field_value (f : field) (st : state) : Z :=
  match f with
  | Seconds => g_seconds st
  | Minutes => g_minutes st
  | Hours => g_hours st
  end.

Definition display_ones (f : field) : cmd :=
  match f with
  | Seconds => Display_Seconds_ones
  | Minutes => Display_Minutes_ones
  | Hours => Display_Hours_ones
  end.

Definition display_tens (f : field) : cmd :=
  match f with
  | Seconds => Display_Seconds_tens
  | Minutes => Display_Minutes_tens
  | Hours => Display_Hours_tens
  end.

Definition display (f : field) : cmd :=
  match f with
  | Seconds => Display_Seconds
  | Minutes => Display_Minutes
  | Hours => Display_Hours
  end.

Definition ones_position (f : field) : Z :=
  match f with Seconds => 0 | Minutes => 2 | Hours => 4 end.

Definition tens_position (f : field) : Z :=
  match f with Seconds => 1 | Minutes => 3 | Hours => 5 end.

(** The display positions whose enable bit is set in a value of [PORTA]. *)
Definition enabled_positions (porta : Z) : list Z :=
  List.filter (fun n => Z.testbit porta n) [0; 1; 2; 3; 4; 5].

(** All three counters within their modulus. *)
Definition counters_in_range (st : state) : Prop :=
  0 <= g_seconds st <= 59 /\ 0 <= g_minutes st <= 59 /\ 0 <= g_hours st <= 59.

(** What holds of the counters between events when ticks are paced: the
    seconds counter may stand at 60 only if a tick came after the last loop
    iteration. *)
Definition loop_inv (ticked : bool) (c : Z * Z * Z) : Prop :=
  let '(s, m, h) := c in
  0 <= s <= (if ticked then 60 else 59) /\ 0 <= m <= 59 /\ 0 <= h <= 59.

(** [+= 1] on an 8-bit counter. *)
Definition incr8 (v : Z) : Z := wrap8 (v + 1).

(** Carry normalisation as the specification words it (section 4.3):
    "1. If seconds == 60: seconds = 0; minutes += 1.
     2. If minutes == 60: minutes = 0; hours += 1.
     3. If hours == 60: hours = 0."
    on the triple (seconds, minutes, hours), each check made once. *)
Definition normalize_spec (c : Z * Z * Z) : Z * Z * Z :=
  let '(s, m, h) := c in
  let '(s1, m1) := if s =? 60 then (0, incr8 m) else (s, m) in
  let '(m2, h1) := if m1 =? 60 then (0, incr8 h) else (m1, h) in
  let h2 := if h1 =? 60 then 0 else h1 in
  (s1, m2, h2).

(** The effect of an event on the three counters alone. *)
Definition counters_step (e : event) (c : Z * Z * Z) : Z * Z * Z :=
  match e with
  | EvReset => (0, 0, 0)
  | EvPause | EvResume => c
  | EvTick => let '(s, m, h) := c in (incr8 s, m, h)
  | EvLoop => normalize_spec c
  end.

Fixpoint counters_run (tr : list event) (c : Z * Z * Z) : Z * Z * Z :=
  match tr with
  | [] => c
  | e :: tr' => counters_run tr' (counters_step e c)
  end.

(** [n] ticks, the main loop completing an iteration after each. *)
Fixpoint ticks_with_loop (n : nat) : list event :=
  match n with
  | O => []
  | S n' => EvTick :: EvLoop :: ticks_with_loop n'
  end.

(** Every routine of the source. *)
Inductive routine : Set :=
  | R_INT0_vect | R_INT1_vect | R_INT2_vect | R_TIMER1_COMPA_vect
  | R_INT0_Init | R_INT1_Init | R_INT2_Init | R_TIMER1_CTC_Init
  | R_Display_Seconds | R_Display_Minutes | R_Display_Hours
  | R_main_init | R_main_loop_body.

Section Routines.
Context {hdr : IoHeader}.

Definition exec (r : routine) : cmd :=
  match r with
  | R_INT0_vect => ISR_INT0_vect
  | R_INT1_vect => ISR_INT1_vect
  | R_INT2_vect => ISR_INT2_vect
  | R_TIMER1_COMPA_vect => ISR_TIMER1_COMPA_vect
  | R_INT0_Init => INT0_Init
  | R_INT1_Init => INT1_Init
  | R_INT2_Init => INT2_Init
  | R_TIMER1_CTC_Init => TIMER1_CTC_Init
  | R_Display_Seconds => Display_Seconds
  | R_Display_Minutes => Display_Minutes
  | R_Display_Hours => Display_Hours
  | R_main_init => main_init
  | R_main_loop_body => main_loop_body
  end.

End Routines.

(** ** Concrete states used in the examples *)

(** All four display positions of minutes and hours enabled. *)
Definition st_positions_2_to_5 : state :=
  {| g_seconds := 0; g_minutes := 0; g_hours := 0;
     io := {[ PORTA := 0x3C ]} |}.

(** The seconds counter at the top of its type. *)
Definition st_seconds_255 : state :=
  {| g_seconds := 255; g_minutes := 0; g_hours := 0; io := ∅ |}.

(** A seconds counter whose tens digit does not fit four bits. *)
Definition st_seconds_160 : state :=
  {| g_seconds := 160; g_minutes := 0; g_hours := 0; io := ∅ |}.

(** One second before the hours wrap. *)
Definition st_59_59_59 : state :=
  {| g_seconds := 59; g_minutes := 59; g_hours := 59; io := ∅ |}.


(** The clock at 2:05:10 with the timer as [TIMER1_CTC_Init] configures it
    ([WGM12], [CS12] and [CS10] set, in the numbering of [atmega32]). *)
Definition st_10_5_2 : state :=
  {| g_seconds := 10; g_minutes := 5; g_hours := 2;
     io := {[ TCCR1B := 0x0D ]} |}.

(** ** Vocabulary for the behaviour of whole runs *)

(** The time a triple of counters stands for, in seconds, and the triple
    that shows [t] seconds on a clock whose hours wrap at 60. *)
Definition elapsed (c : Z * Z * Z) : Z :=
  let '(s, m, h) := c in 3600 * h + 60 * m + s.

Definition clock_of (t : Z) : Z * Z * Z :=
  (t mod 60, (t / 60) mod 60, (t / 3600) mod 60).

(** Whether the stop watch runs after a sequence of events, given whether
    it ran before: the last pause or resume decides. *)
Fixpoint run_state (running : bool) (tr : list event) : bool :=
  match tr with
  | [] => running
  | EvPause :: tr' => run_state false tr'
  | EvResume :: tr' => run_state true tr'
  | _ :: tr' => run_state running tr'
  end.


Section Passing.
Context {hdr : IoHeader}.



End Passing.


(** Events that neither tick nor reset. *)
Definition quiet (e : event) : bool :=
  match e with
  | EvTick | EvReset => false
  | EvPause | EvResume | EvLoop => true
  end.

(** [k] numbers a bit of an 8-bit register. *)
Definition bit_number (k : Z) : Prop := 0 <= k < 8.

Section Setup.
Context {hdr : IoHeader}.

(** The bit names that [main] uses before its loop to set up the external
    interrupts and their pins all number bits of an 8-bit register. *)
Definition setup_bit_numbers : Prop :=
  bit_number INT0 /\ bit_number INT1 /\ bit_number INT2
  /\ bit_number SREG_I
  /\ bit_number ISC01 /\ bit_number ISC10 /\ bit_number ISC11
  /\ bit_number ISC2
  /\ bit_number PD2 /\ bit_number PD3 /\ bit_number PB2.

End Setup.

(** ** Basic facts about truncation and single bits *)

Lemma wrap_range w v : 0 <= w -> 0 <= wrap w v < 2 ^ w.
Proof. intros Hw. unfold wrap. apply Z.mod_pos_bound. by apply Z.pow_pos_nonneg. Qed.

Lemma wrap_small w v : 0 <= v < 2 ^ w -> wrap w v = v.
Proof. intros H. unfold wrap. by apply Z.mod_small. Qed.

Lemma wrap_testbit w v n :
  0 <= w -> Z.testbit (wrap w v) n = (n <? w) && Z.testbit v n.
Proof.
  intros Hw. unfold wrap.
  destruct (Z.ltb_spec n w) as [Hlt | Hge]; simpl.
  - destruct (Z.neg_nonneg_cases n) as [Hn | Hn].
    + by rewrite !Z.testbit_neg_r.
    + by apply Z.mod_pow2_bits_low.
  - apply Z.mod_pow2_bits_high. lia.
Qed.

Lemma wrap8_testbit v n : Z.testbit (wrap8 v) n = (n <? 8) && Z.testbit v n.
Proof. by apply wrap_testbit. Qed.

Lemma wrap8_range v : 0 <= wrap8 v < 256.
Proof. by apply (wrap_range 8). Qed.

Lemma wrap8_small v : 0 <= v < 256 -> wrap8 v = v.
Proof. by apply (wrap_small 8). Qed.

Lemma bit_testbit k n : 0 <= k -> Z.testbit (bit k) n = (k =? n).
Proof.
  intros Hk. unfold bit. rewrite Z.shiftl_1_l. by apply Z.pow2_bits_eqb.
Qed.

Lemma reg_width_nonneg r : 0 <= reg_width r.
Proof. destruct r; simpl; lia. Qed.

(** ** Reading and writing the state *)

Lemma read_write_eq r v st : read r (write r v st) = wrap (reg_width r) v.
Proof. unfold read, write; simpl. by rewrite lookup_insert_eq. Qed.

Lemma read_write_ne r r' v st : r <> r' -> read r' (write r v st) = read r' st.
Proof. intros Hne. unfold read, write; simpl. by rewrite lookup_insert_ne. Qed.

Lemma write_write r v v' st : write r v (write r v' st) = write r v st.
Proof. unfold write; simpl. by rewrite insert_insert_eq. Qed.

Lemma state_eq st1 st2 :
  counters st1 = counters st2 -> io st1 = io st2 -> st1 = st2.
Proof.
  destruct st1, st2; unfold counters; simpl.
  intros [= -> -> ->] ->. reflexivity.
Qed.

(** Unfolding a routine down to reads and writes. *)
Ltac unfold_cmds :=
  unfold seq, reg_or, reg_and, reg_assign, when, _delay_us,
    seconds_assign, minutes_assign, hours_assign in *.

Ltac simpl_reads :=
  repeat first
    [ rewrite read_write_eq
    | rewrite read_write_ne by discriminate ].

(** ** Effect of each routine on the counters *)

Section Counters.
Context {hdr : IoHeader}.

Lemma counters_INT0 st : counters (ISR_INT0_vect st) = (0, 0, 0).
Proof. reflexivity. Qed.

Lemma counters_INT1 st : counters (ISR_INT1_vect st) = counters st.
Proof. reflexivity. Qed.

Lemma counters_INT2 st : counters (ISR_INT2_vect st) = counters st.
Proof. reflexivity. Qed.

Lemma counters_TIMER1_COMPA st :
  counters (ISR_TIMER1_COMPA_vect st)
  = (incr8 (g_seconds st), g_minutes st, g_hours st).
Proof. reflexivity. Qed.

Lemma counters_display f st : counters (display f st) = counters st.
Proof. destruct f; reflexivity. Qed.

Lemma counters_main_init st : counters (main_init st) = counters st.
Proof. reflexivity. Qed.

Lemma io_carry_normalization st : io (carry_normalization st) = io st.
Proof.
  unfold carry_normalization. unfold_cmds.
  repeat (match goal with |- context [if ?b then _ else _] => destruct b end;
          simpl); reflexivity.
Qed.

Lemma counters_carry_normalization st :
  counters (carry_normalization st) = normalize_spec (counters st).
Proof.
  destruct st as [s m h regs].
  unfold carry_normalization, normalize_spec, counters, incr8.
  unfold_cmds. simpl.
  destruct (s =? 60); simpl.
  - change (wrap8 0) with 0.
    destruct (wrap8 (m + 1) =? 60); simpl.
    + change (wrap8 0) with 0. destruct (wrap8 (h + 1) =? 60); reflexivity.
    + destruct (h =? 60); reflexivity.
  - destruct (m =? 60); simpl.
    + change (wrap8 0) with 0. destruct (wrap8 (h + 1) =? 60); reflexivity.
    + destruct (h =? 60); reflexivity.
Qed.

Lemma counters_main_loop_body st :
  counters (main_loop_body st) = normalize_spec (counters st).
Proof.
  unfold main_loop_body. unfold seq at 1 2 3.
  rewrite (counters_display Hours), (counters_display Minutes),
    (counters_display Seconds).
  apply counters_carry_normalization.
Qed.

Lemma counters_step_sound e st :
  counters (step e st) = counters_step e (counters st).
Proof.
  destruct e; simpl.
  - apply counters_INT0.
  - apply counters_INT1.
  - apply counters_INT2.
  - apply counters_TIMER1_COMPA.
  - apply counters_main_loop_body.
Qed.

Lemma counters_run_sound tr : forall st,
  counters (run tr st) = counters_run tr (counters st).
Proof.
  induction tr as [| e tr IH]; intros st; simpl.
  - reflexivity.
  - rewrite IH. f_equal. apply counters_step_sound.
Qed.

End Counters.

(** ** Carry normalisation on the counters *)

Lemma incr8_small v : 0 <= v < 255 -> incr8 v = v + 1.
Proof. intros H. unfold incr8. apply wrap8_small. lia. Qed.

Lemma normalize_spec_fixed s m h :
  s <> 60 -> m <> 60 -> h <> 60 -> normalize_spec (s, m, h) = (s, m, h).
Proof.
  intros Hs Hm Hh. unfold normalize_spec.
  destruct (Z.eqb_spec s 60); [done |].
  destruct (Z.eqb_spec m 60); [done |].
  destruct (Z.eqb_spec h 60); [done |]. reflexivity.
Qed.

Lemma normalize_spec_loop_inv b c :
  loop_inv b c -> loop_inv false (normalize_spec c).
Proof.
  destruct c as [[s m] h]. unfold loop_inv, normalize_spec.
  intros (Hs & Hm & Hh).
  assert (Hs' : 0 <= s <= 60) by (destruct b; lia).
  destruct (Z.eqb_spec s 60) as [-> | Hs60].
  - rewrite (incr8_small m) by lia.
    destruct (Z.eqb_spec (m + 1) 60) as [Hm60 | Hm60].
    + rewrite (incr8_small h) by lia.
      destruct (Z.eqb_spec (h + 1) 60); lia.
    + destruct (Z.eqb_spec h 60); lia.
  - destruct (Z.eqb_spec m 60); [lia |].
    destruct (Z.eqb_spec h 60); lia.
Qed.

Lemma counters_step_loop_inv e b tr c :
  paced b (e :: tr) = true -> loop_inv b c ->
  exists b', paced b' tr = true /\ loop_inv b' (counters_step e c).
Proof.
  destruct e; simpl; intros Hp Hinv.
  - exists b. split; [done |]. unfold loop_inv. destruct b; lia.
  - by exists b.
  - by exists b.
  - apply andb_true_iff in Hp as [Hb Hp]. apply negb_true_iff in Hb. subst b.
    exists true. split; [done |].
    destruct c as [[s m] h]. unfold loop_inv in *.
    rewrite incr8_small by lia. lia.
  - exists false. split; [done |]. by apply (normalize_spec_loop_inv b).
Qed.

Lemma counters_run_loop_inv tr : forall b c,
  paced b tr = true -> loop_inv b c ->
  exists b', loop_inv b' (counters_run tr c).
Proof.
  induction tr as [| e tr IH]; intros b c Hp Hinv.
  - by exists b.
  - destruct (counters_step_loop_inv e b tr c Hp Hinv) as (b' & Hp' & Hinv').
    simpl. by apply (IH b').
Qed.

Section Clock.
Context {hdr : IoHeader}.

(** C1. In every state reached from power-on through reset, pause, resume,
    tick and loop-iteration events, with at most one tick between two
    successive loop iterations, the counters stand within 0..59 right after
    the carry-normalisation step of the main loop. *)
Theorem C1_normalized_counters_in_range (regs : gmap reg Z) (tr : list event) :
  paced false tr = true ->
  counters_in_range (carry_normalization (run tr (startup (power_on regs)))).
Proof.
  intros Hp.
  pose proof (counters_carry_normalization (run tr (startup (power_on regs))))
    as Hn.
  rewrite counters_run_sound in Hn.
  unfold startup in Hn. rewrite counters_main_init in Hn.
  change (counters (power_on regs)) with (0, 0, 0) in Hn.
  destruct (counters_run_loop_inv tr false (0, 0, 0) Hp) as (b & Hinv).
  { unfold loop_inv. lia. }
  apply (normalize_spec_loop_inv b) in Hinv. rewrite <- Hn in Hinv.
  exact Hinv.
Qed.

(** C2. The carry-normalisation step is the three checks of the
    specification made once each and in order: seconds against 60 (carry
    into minutes), then minutes against 60 (carry into hours), then hours
    against 60; it touches no register, and a state none of whose counters
    equals 60 is left as it is. *)
Theorem C2_carry_normalization_spec (st : state) :
  counters (carry_normalization st) = normalize_spec (counters st)
  /\ io (carry_normalization st) = io st
  /\ (g_seconds st <> 60 -> g_minutes st <> 60 -> g_hours st <> 60 ->
      carry_normalization st = st).
Proof.
  split; [apply counters_carry_normalization |].
  split; [apply io_carry_normalization |].
  intros Hs Hm Hh. apply state_eq.
  - rewrite counters_carry_normalization. by apply normalize_spec_fixed.
  - apply io_carry_normalization.
Qed.

(** C8. From counters (0,0,0), 61 ticks with a loop iteration after each
    and no control input leave the counters at seconds 1, minutes 1,
    hours 0. *)
Theorem C8_sixty_one_ticks (st : state) :
  counters st = (0, 0, 0) ->
  counters (run (ticks_with_loop 61) st) = (1, 1, 0).
Proof.
  intros H0. rewrite counters_run_sound, H0. by vm_compute.
Qed.

End Clock.

(** ** Read-modify-write statements *)

Lemma write_ext r v v' st :
  wrap (reg_width r) v = wrap (reg_width r) v' -> write r v st = write r v' st.
Proof. intros H. unfold write. by rewrite H. Qed.

Lemma write_commute r r' v v' st :
  r <> r' -> write r v (write r' v' st) = write r' v' (write r v st).
Proof.
  intros Hne. unfold write; simpl. f_equal. by apply insert_insert_ne.
Qed.

Lemma wrap_lor_idemp w x m :
  0 <= w -> wrap w (Z.lor (wrap w (Z.lor x m)) m) = wrap w (Z.lor x m).
Proof.
  intros Hw. apply Z.bits_inj'; intros n Hn.
  rewrite !wrap_testbit, !Z.lor_spec, wrap_testbit, Z.lor_spec by done.
  destruct (n <? w), (Z.testbit x n), (Z.testbit m n); reflexivity.
Qed.

Lemma wrap_land_idemp w x m :
  0 <= w -> wrap w (Z.land (wrap w (Z.land x m)) m) = wrap w (Z.land x m).
Proof.
  intros Hw. apply Z.bits_inj'; intros n Hn.
  rewrite !wrap_testbit, !Z.land_spec, wrap_testbit, Z.land_spec by done.
  destruct (n <? w), (Z.testbit x n), (Z.testbit m n); reflexivity.
Qed.

Lemma reg_or_idemp r m st : reg_or r m (reg_or r m st) = reg_or r m st.
Proof.
  unfold reg_or, reg_assign. rewrite read_write_eq, write_write.
  apply write_ext, wrap_lor_idemp, reg_width_nonneg.
Qed.

Lemma reg_and_idemp r m st : reg_and r m (reg_and r m st) = reg_and r m st.
Proof.
  unfold reg_and, reg_assign. rewrite read_write_eq, write_write.
  apply write_ext, wrap_land_idemp, reg_width_nonneg.
Qed.

Lemma reg_or_and_commute r r' m m' st :
  r <> r' -> reg_or r m (reg_and r' m' st) = reg_and r' m' (reg_or r m st).
Proof.
  intros Hne. unfold reg_or, reg_and, reg_assign.
  rewrite !read_write_ne by done. by apply write_commute.
Qed.

Lemma read_reg_assign_eq r e st :
  read r (reg_assign r e st) = wrap (reg_width r) (e st).
Proof. apply read_write_eq. Qed.

Lemma read_reg_assign_ne r r' e st :
  r <> r' -> read r' (reg_assign r e st) = read r' st.
Proof. apply read_write_ne. Qed.

Lemma read_reg_or_eq r m st :
  read r (reg_or r m st) = wrap (reg_width r) (Z.lor (read r st) m).
Proof. apply read_write_eq. Qed.

Lemma read_reg_or_ne r r' m st :
  r <> r' -> read r' (reg_or r m st) = read r' st.
Proof. apply read_write_ne. Qed.

Lemma read_reg_and_eq r m st :
  read r (reg_and r m st) = wrap (reg_width r) (Z.land (read r st) m).
Proof. apply read_write_eq. Qed.

Lemma read_reg_and_ne r r' m st :
  r <> r' -> read r' (reg_and r m st) = read r' st.
Proof. apply read_write_ne. Qed.

(** Reading a register after a sequence of register statements, one
    statement at a time. *)
Ltac reads :=
  unfold seq;
  repeat first
    [ rewrite read_reg_or_eq
    | rewrite read_reg_and_eq
    | rewrite read_reg_assign_eq
    | rewrite read_reg_or_ne by discriminate
    | rewrite read_reg_and_ne by discriminate
    | rewrite read_reg_assign_ne by discriminate ].

Lemma iter_idemp {A : Type} (f : A -> A) (n : nat) (x : A) :
  (forall y, f (f y) = f y) -> Nat.iter (S n) f x = f x.
Proof.
  intros Hf. induction n as [| n IH]; [reflexivity |].
  change (Nat.iter (S (S n)) f x) with (f (Nat.iter (S n) f x)).
  by rewrite IH.
Qed.

Section Handlers.
Context {hdr : IoHeader}.

Lemma INT0_idemp st : ISR_INT0_vect (ISR_INT0_vect st) = ISR_INT0_vect st.
Proof.
  apply state_eq; [reflexivity |].
  pose proof (reg_or_idemp GIFR (bit INTF0) st) as H.
  apply (f_equal io) in H. exact H.
Qed.

End Handlers.

(** ** Bits of the masks *)

Lemma testbit_high v k n : 0 <= v < 2 ^ k -> k <= n -> Z.testbit v n = false.
Proof.
  intros Hv Hn.
  destruct (Z.eq_dec v 0) as [-> | Hv0]; [apply Z.bits_0 |].
  destruct (Z.neg_nonneg_cases k) as [Hk | Hk].
  { rewrite Z.pow_neg_r in Hv by done. lia. }
  assert (Hle : 2 ^ k <= 2 ^ n) by (apply Z.pow_le_mono_r; lia).
  apply Z.bits_above_log2; [lia |].
  apply Z.log2_lt_pow2; lia.
Qed.

Lemma small_cases n : 0 <= n < 8 ->
  n = 0 \/ n = 1 \/ n = 2 \/ n = 3 \/ n = 4 \/ n = 5 \/ n = 6 \/ n = 7.
Proof. lia. Qed.

Lemma testbit_0xC0 n : 0 <= n -> Z.testbit 0xC0 n = (6 <=? n) && (n <? 8).
Proof.
  intros Hn. destruct (Z.ltb_spec n 8) as [Hlt | Hge].
  - destruct (small_cases n) as [-> | [-> | [-> | [-> | [-> | [-> | [-> | ->]]]]]]];
      [lia | reflexivity ..].
  - rewrite (testbit_high 0xC0 8 n) by lia. by rewrite andb_false_r.
Qed.

Lemma testbit_0xF0 n : 0 <= n -> Z.testbit 0xF0 n = (4 <=? n) && (n <? 8).
Proof.
  intros Hn. destruct (Z.ltb_spec n 8) as [Hlt | Hge].
  - destruct (small_cases n) as [-> | [-> | [-> | [-> | [-> | [-> | [-> | ->]]]]]]];
      [lia | reflexivity ..].
  - rewrite (testbit_high 0xF0 8 n) by lia. by rewrite andb_false_r.
Qed.

Lemma testbit_0x0F n : 0 <= n -> Z.testbit 0x0F n = (n <? 4).
Proof.
  intros Hn. destruct (Z.ltb_spec n 4) as [Hlt | Hge].
  - assert (n = 0 \/ n = 1 \/ n = 2 \/ n = 3) as [-> | [-> | [-> | ->]]] by lia;
      reflexivity.
  - apply (testbit_high 0x0F 4 n); lia.
Qed.

(** [PORTA = (PORTA & 0xC0) | (1 << k)] for a display position [k]. *)
Lemma enable_write_testbit x k n :
  0 <= k < 6 -> 0 <= n ->
  Z.testbit (wrap8 (Z.lor (Z.land x 0xC0) (bit k))) n
  = if n <? 6 then k =? n else (n <? 8) && Z.testbit x n.
Proof.
  intros Hk Hn.
  rewrite wrap8_testbit, Z.lor_spec, Z.land_spec, testbit_0xC0, bit_testbit
    by lia.
  destruct (Z.ltb_spec n 6), (Z.ltb_spec n 8), (Z.leb_spec 6 n),
    (Z.eqb_spec k n), (Z.testbit x n); simpl; try reflexivity; lia.
Qed.

(** [PORTC = (PORTC & 0xF0) | d] for a digit [d] that fits four bits. *)
Lemma digit_write_low x d :
  0 <= d < 16 -> Z.land (wrap8 (Z.lor (Z.land x 0xF0) d)) 0x0F = d.
Proof.
  intros Hd. apply Z.bits_inj'; intros n Hn.
  rewrite Z.land_spec, wrap8_testbit, Z.lor_spec, Z.land_spec, testbit_0xF0,
    testbit_0x0F by lia.
  destruct (Z.ltb_spec n 4), (Z.ltb_spec n 8), (Z.leb_spec 4 n); simpl;
    try lia; rewrite ?andb_false_r, ?andb_true_r, ?orb_false_r; simpl;
    try reflexivity.
  all: symmetry; apply (testbit_high d 4 n); lia.
Qed.

Lemma digit_write_high x d :
  0 <= d < 16 ->
  Z.land (wrap8 (Z.lor (Z.land x 0xF0) d)) 0xF0 = Z.land x 0xF0.
Proof.
  intros Hd. apply Z.bits_inj'; intros n Hn.
  rewrite !Z.land_spec, wrap8_testbit, Z.lor_spec, Z.land_spec, testbit_0xF0
    by lia.
  destruct (Z.ltb_spec n 8), (Z.leb_spec 4 n); simpl;
    rewrite ?andb_false_r, ?andb_true_r; try reflexivity.
  rewrite (testbit_high d 4 n) by lia. by rewrite orb_false_r.
Qed.

(** ** The display routines *)

Lemma display_two_halves f st : display f st = display_tens f (display_ones f st).
Proof. destruct f; reflexivity. Qed.

Lemma PORTA_display_ones f st :
  read PORTA (display_ones f st)
  = wrap8 (Z.lor (Z.land (read PORTA st) 0xC0) (bit (ones_position f))).
Proof.
  destruct f; unfold display_ones, Display_Seconds_ones, Display_Minutes_ones,
    Display_Hours_ones; unfold_cmds; by simpl_reads.
Qed.

Lemma PORTA_display_tens f st :
  read PORTA (display_tens f st)
  = wrap8 (Z.lor (Z.land (read PORTA st) 0xC0) (bit (tens_position f))).
Proof.
  destruct f; unfold display_tens, Display_Seconds_tens, Display_Minutes_tens,
    Display_Hours_tens; unfold_cmds; by simpl_reads.
Qed.

Lemma PORTC_display_ones f st :
  read PORTC (display_ones f st)
  = wrap8 (Z.lor (Z.land (read PORTC st) 0xF0) (Z.rem (field_value f st) 10)).
Proof.
  destruct f; unfold display_ones, Display_Seconds_ones, Display_Minutes_ones,
    Display_Hours_ones; unfold_cmds; by simpl_reads.
Qed.

Lemma PORTC_display_tens f st :
  read PORTC (display_tens f st)
  = wrap8 (Z.lor (Z.land (read PORTC st) 0xF0) (Z.quot (field_value f st) 10)).
Proof.
  destruct f; unfold display_tens, Display_Seconds_tens, Display_Minutes_tens,
    Display_Hours_tens; unfold_cmds; by simpl_reads.
Qed.

Lemma field_value_display_ones f g st :
  field_value f (display_ones g st) = field_value f st.
Proof. destruct f, g; reflexivity. Qed.

Lemma position_ranges f :
  0 <= ones_position f < 6 /\ 0 <= tens_position f < 6.
Proof. destruct f; simpl; lia. Qed.

Lemma enabled_positions_one_hot x k :
  0 <= k < 6 ->
  enabled_positions (wrap8 (Z.lor (Z.land x 0xC0) (bit k))) = [k].
Proof.
  intros Hk. unfold enabled_positions. cbn [List.filter].
  rewrite !enable_write_testbit by lia. cbn [Z.ltb Z.compare Pos.compare
    Pos.compare_cont].
  assert (k = 0 \/ k = 1 \/ k = 2 \/ k = 3 \/ k = 4 \/ k = 5)
    as [-> | [-> | [-> | [-> | [-> | ->]]]]] by lia; reflexivity.
Qed.

(** C3 (as amended). A call to a display routine rewrites all six bits of
    the enable bus: after the call, of [PORTA] bits 0 to 5 only the tens
    position of the routine's field is set, whatever the six bits held
    before; the bits of [PORTA] that keep their value are bits 6 and 7,
    which are outside the enable bus. *)
Theorem C3_display_enable_bus (f : field) (st : state) (n : Z) :
  (0 <= n < 6 ->
   Z.testbit (read PORTA (display f st)) n = (n =? tens_position f))
  /\ (6 <= n < 8 ->
      Z.testbit (read PORTA (display f st)) n = Z.testbit (read PORTA st) n).
Proof.
  destruct (position_ranges f) as [Ho Ht].
  rewrite display_two_halves, PORTA_display_tens, PORTA_display_ones.
  split; intros Hn.
  - rewrite enable_write_testbit by lia.
    destruct (Z.ltb_spec n 6); [apply Z.eqb_sym | lia].
  - rewrite !enable_write_testbit by lia.
    destruct (Z.ltb_spec n 6), (Z.ltb_spec n 8); try lia. reflexivity.
Qed.

(** C10 (as amended). After each of the two halves of every display routine,
    whatever [PORTA] held before, exactly one of the six enable bits of
    [PORTA] is set: the ones position of the field after the first half, its
    tens position after the second.  The write of [value % 10] keeps the
    upper four bits of [PORTC] and puts the digit in the lower four; the
    write of [value / 10] does so when the counter is at most 159, so that
    the quotient fits four bits. *)
Theorem C10_display_halves (f : field) (st : state) :
  enabled_positions (read PORTA (display_ones f st)) = [ones_position f]
  /\ enabled_positions (read PORTA (display_tens f (display_ones f st)))
     = [tens_position f]
  /\ (0 <= field_value f st < 256 ->
      Z.land (read PORTC (display_ones f st)) 0xF0
      = Z.land (read PORTC st) 0xF0
      /\ Z.land (read PORTC (display_ones f st)) 0x0F
         = field_value f st mod 10)
  /\ (0 <= field_value f st < 160 ->
      Z.land (read PORTC (display_tens f (display_ones f st))) 0xF0
      = Z.land (read PORTC st) 0xF0
      /\ Z.land (read PORTC (display_tens f (display_ones f st))) 0x0F
         = field_value f st / 10).
Proof.
  destruct (position_ranges f) as [Ho Ht].
  split; [| split; [| split]].
  - rewrite PORTA_display_ones. by apply enabled_positions_one_hot.
  - rewrite PORTA_display_tens. by apply enabled_positions_one_hot.
  - intros Hv. rewrite PORTC_display_ones.
    rewrite Z.rem_mod_nonneg by lia.
    assert (Hd : 0 <= field_value f st mod 10 < 16).
    { pose proof (Z.mod_pos_bound (field_value f st) 10). lia. }
    split; [by apply digit_write_high | by apply digit_write_low].
  - intros Hv. rewrite PORTC_display_tens, field_value_display_ones.
    rewrite PORTC_display_ones.
    rewrite Z.quot_div_nonneg, Z.rem_mod_nonneg by lia.
    assert (Hd : 0 <= field_value f st mod 10 < 16).
    { pose proof (Z.mod_pos_bound (field_value f st) 10). lia. }
    assert (Hq : 0 <= field_value f st / 10 < 16).
    { split; [apply Z.div_pos; lia | apply Z.div_lt_upper_bound; lia]. }
    split.
    + rewrite digit_write_high by done.
      apply Z.bits_inj'; intros n Hn.
      rewrite !Z.land_spec, wrap8_testbit, Z.lor_spec, Z.land_spec,
        testbit_0xF0 by lia.
      destruct (Z.ltb_spec n 8), (Z.leb_spec 4 n); simpl;
        rewrite ?andb_false_r, ?andb_true_r; try reflexivity.
      rewrite (testbit_high (field_value f st mod 10) 4 n) by lia.
      by rewrite orb_false_r.
    + by apply digit_write_low.
Qed.

Lemma read_display r f st :
  r <> PORTA -> r <> PORTC -> read r (display f st) = read r st.
Proof.
  intros Ha Hc.
  destruct f; unfold display, Display_Seconds, Display_Minutes, Display_Hours,
    Display_Seconds_ones, Display_Seconds_tens, Display_Minutes_ones,
    Display_Minutes_tens, Display_Hours_ones, Display_Hours_tens;
    unfold_cmds; by rewrite !read_write_ne.
Qed.

Lemma read_carry_normalization r st : read r (carry_normalization st) = read r st.
Proof. unfold read. by rewrite io_carry_normalization. Qed.

Lemma read_main_loop_body r st :
  r <> PORTA -> r <> PORTC -> read r (main_loop_body st) = read r st.
Proof.
  intros Ha Hc. unfold main_loop_body. unfold seq at 1 2 3.
  rewrite (read_display r Hours), (read_display r Minutes),
    (read_display r Seconds) by done.
  apply read_carry_normalization.
Qed.

(** ** The timer control register *)

Section Timer.
Context {hdr : IoHeader}.

Lemma TCCR1B_INT0 st : read TCCR1B (ISR_INT0_vect st) = read TCCR1B st.
Proof.
  unfold ISR_INT0_vect; unfold_cmds. unfold read at 1; simpl.
  by rewrite lookup_insert_ne.
Qed.

Lemma TCCR1B_TIMER1_COMPA st :
  read TCCR1B (ISR_TIMER1_COMPA_vect st) = read TCCR1B st.
Proof.
  unfold ISR_TIMER1_COMPA_vect; unfold_cmds. unfold read at 1; simpl.
  by rewrite lookup_insert_ne.
Qed.

Lemma testbit_TCCR1B_INT1 st n :
  0 <= n ->
  Z.testbit (read TCCR1B (ISR_INT1_vect st)) n
  = (n <? 8) && Z.testbit (read TCCR1B st) n
    && negb (CS10 =? n) && negb (CS12 =? n).
Proof.
  intros Hn. pose proof CS10_bit. pose proof CS12_bit.
  unfold ISR_INT1_vect; unfold_cmds. simpl_reads.
  change (wrap (reg_width TCCR1B)) with wrap8.
  rewrite !wrap8_testbit, !Z.land_spec, wrap8_testbit, Z.land_spec,
    !Z.lnot_spec, !bit_testbit by lia.
  destruct (n <? 8), (Z.testbit (read TCCR1B st) n), (CS10 =? n), (CS12 =? n);
    reflexivity.
Qed.

Lemma testbit_TCCR1B_INT2 st n :
  0 <= n ->
  Z.testbit (read TCCR1B (ISR_INT2_vect st)) n
  = (n <? 8) && (Z.testbit (read TCCR1B st) n || (CS10 =? n) || (CS12 =? n)).
Proof.
  intros Hn. pose proof CS10_bit. pose proof CS12_bit.
  unfold ISR_INT2_vect; unfold_cmds. simpl_reads.
  change (wrap (reg_width TCCR1B)) with wrap8.
  rewrite wrap8_testbit, !Z.lor_spec, !bit_testbit by lia.
  destruct (n <? 8), (Z.testbit (read TCCR1B st) n), (CS10 =? n), (CS12 =? n);
    reflexivity.
Qed.

Lemma timer_stopped_INT1 st :
  Z.testbit (read TCCR1B st) CS11 = false ->
  timer_running (ISR_INT1_vect st) = false.
Proof.
  intros H11. pose proof CS10_bit. pose proof CS11_bit. pose proof CS12_bit.
  unfold timer_running. rewrite !testbit_TCCR1B_INT1 by lia.
  rewrite H11, !Z.eqb_refl. simpl.
  by rewrite !andb_false_r.
Qed.

Lemma timer_running_INT2 st : timer_running (ISR_INT2_vect st) = true.
Proof.
  pose proof CS10_bit. unfold timer_running.
  rewrite (testbit_TCCR1B_INT2 st CS10) by lia. rewrite Z.eqb_refl.
  destruct (Z.ltb_spec CS10 8); [| lia].
  by rewrite orb_true_r.
Qed.

Lemma timer_running_TIMER1_COMPA st :
  timer_running (ISR_TIMER1_COMPA_vect st) = timer_running st.
Proof. unfold timer_running. by rewrite TCCR1B_TIMER1_COMPA. Qed.

Lemma timer_period_stopped st : timer_running st = false -> timer_period st = st.
Proof. intros H. unfold timer_period, when. by rewrite H. Qed.

Lemma timer_period_running st :
  timer_running st = true -> timer_period st = ISR_TIMER1_COMPA_vect st.
Proof. intros H. unfold timer_period, when. by rewrite H. Qed.

Lemma iter_timer_period_stopped n st :
  timer_running st = false -> Nat.iter n timer_period st = st.
Proof.
  intros H. induction n as [| n IH]; [reflexivity |].
  simpl. rewrite IH. by apply timer_period_stopped.
Qed.

Lemma iter_timer_period_running k : forall st,
  timer_running st = true ->
  0 <= g_seconds st -> g_seconds st + Z.of_nat k <= 255 ->
  timer_running (Nat.iter k timer_period st) = true
  /\ counters (Nat.iter k timer_period st)
     = (g_seconds st + Z.of_nat k, g_minutes st, g_hours st).
Proof.
  induction k as [| k IH]; intros st Hrun H0 Hk.
  - simpl. split; [done |]. unfold counters. f_equal. f_equal. lia.
  - destruct (IH st Hrun H0) as [Hrun' Hc]; [lia |].
    change (Nat.iter (S k) timer_period st)
      with (timer_period (Nat.iter k timer_period st)).
    rewrite timer_period_running by done.
    rewrite timer_running_TIMER1_COMPA, counters_TIMER1_COMPA.
    split; [done |].
    injection Hc as Hs Hm Hh. rewrite Hs, Hm, Hh.
    rewrite incr8_small by lia. f_equal. f_equal. lia.
Qed.

Lemma INT1_idemp st : ISR_INT1_vect (ISR_INT1_vect st) = ISR_INT1_vect st.
Proof.
  unfold ISR_INT1_vect. unfold seq.
  set (a := bit INTF1). set (b := Z.lnot (bit CS10)).
  set (c := Z.lnot (bit CS12)).
  rewrite !(reg_or_and_commute GIFR TCCR1B) by done.
  rewrite reg_or_idemp.
  set (st' := reg_or GIFR a st).
  assert (Hswap : forall s, reg_and TCCR1B b (reg_and TCCR1B c s)
                            = reg_and TCCR1B c (reg_and TCCR1B b s)).
  { intros s. unfold reg_and, reg_assign.
    rewrite !read_write_eq, !write_write. apply write_ext.
    apply Z.bits_inj'; intros n Hn.
    rewrite !wrap_testbit, !Z.land_spec, !wrap_testbit, !Z.land_spec by done.
    destruct (n <? reg_width TCCR1B), (Z.testbit (read TCCR1B s) n),
      (Z.testbit b n), (Z.testbit c n); reflexivity. }
  by rewrite Hswap, !reg_and_idemp.
Qed.

End Timer.

(** ** The program never sets [CS11] *)

Section ClockSelect.
Context {hdr : IoHeader}.

Lemma CS11_clear_step e st :
  Z.testbit (read TCCR1B st) CS11 = false ->
  Z.testbit (read TCCR1B (step e st)) CS11 = false.
Proof.
  intros H11. pose proof CS11_bit. pose proof CS11_CS10. pose proof CS11_CS12.
  destruct e; simpl.
  - by rewrite TCCR1B_INT0.
  - rewrite testbit_TCCR1B_INT1 by lia. rewrite H11. by rewrite andb_false_r.
  - rewrite testbit_TCCR1B_INT2 by lia. rewrite H11.
    destruct (Z.eqb_spec CS10 CS11), (Z.eqb_spec CS12 CS11); try congruence.
    by rewrite andb_false_r.
  - by rewrite TCCR1B_TIMER1_COMPA.
  - by rewrite read_main_loop_body.
Qed.

Lemma CS11_clear_run tr : forall st,
  Z.testbit (read TCCR1B st) CS11 = false ->
  Z.testbit (read TCCR1B (run tr st)) CS11 = false.
Proof.
  induction tr as [| e tr IH]; intros st H11; simpl; [done |].
  by apply IH, CS11_clear_step.
Qed.

Lemma CS11_clear_startup st :
  Z.testbit (read TCCR1B st) CS11 = false ->
  Z.testbit (read TCCR1B (startup st)) CS11 = false.
Proof.
  intros H11.
  pose proof CS11_bit. pose proof CS10_bit. pose proof CS12_bit.
  pose proof WGM12_bit.
  pose proof CS11_CS10. pose proof CS11_CS12. pose proof CS11_WGM12.
  unfold startup, main_init, sei, INT0_Init, INT1_Init, INT2_Init,
    TIMER1_CTC_Init. reads.
  change (wrap (reg_width TCCR1B)) with wrap8.
  rewrite wrap8_testbit, !Z.lor_spec, !bit_testbit, H11 by lia.
  destruct (Z.eqb_spec WGM12 CS11), (Z.eqb_spec CS10 CS11),
    (Z.eqb_spec CS12 CS11); try congruence.
  by rewrite andb_false_r.
Qed.

(** Whatever happens after start-up, [CS11] stays as the hardware left it
    at power-on when that was clear (the reset value of [TCCR1B] is 0). *)
Lemma CS11_clear_reachable regs tr :
  Z.testbit (read TCCR1B (power_on regs)) CS11 = false ->
  Z.testbit (read TCCR1B (run tr (startup (power_on regs)))) CS11 = false.
Proof. intros H. by apply CS11_clear_run, CS11_clear_startup. Qed.

End ClockSelect.

(** ** The interrupt routines *)

Section Interrupts.
Context {hdr : IoHeader}.

(** C4 (as amended). The tick routine adds one to the 8-bit seconds counter:
    the new value is seconds + 1, except that from 255 the counter wraps to
    0; minutes and hours keep their values, and no other routine of the
    program raises seconds: each leaves it as it is or sets it to 0. *)
Theorem C4_tick_effect (st : state) :
  well_typed st = true ->
  g_seconds (ISR_TIMER1_COMPA_vect st)
  = (if g_seconds st =? 255 then 0 else g_seconds st + 1)
  /\ g_minutes (ISR_TIMER1_COMPA_vect st) = g_minutes st
  /\ g_hours (ISR_TIMER1_COMPA_vect st) = g_hours st
  /\ forall r : routine, r <> R_TIMER1_COMPA_vect ->
       g_seconds (exec r st) = g_seconds st \/ g_seconds (exec r st) = 0.
Proof.
  intros Hwt. split; [| split; [reflexivity | split; [reflexivity |]]].
  - unfold well_typed in Hwt. rewrite !andb_true_iff in Hwt.
    destruct Hwt as [[[Hs _] _] _]. unfold byte_range in Hs.
    apply andb_true_iff in Hs as [Hs0 Hs1].
    change (g_seconds (ISR_TIMER1_COMPA_vect st)) with (incr8 (g_seconds st)).
    destruct (Z.eqb_spec (g_seconds st) 255) as [-> | Hne]; [reflexivity |].
    apply incr8_small. lia.
  - intros r Hr.
    destruct r; try congruence; try (left; reflexivity);
      try (right; reflexivity).
    simpl. pose proof (counters_main_loop_body st) as Hc.
    unfold counters, normalize_spec in Hc.
    destruct (g_seconds st =? 60);
      destruct (_ =? 60) in Hc; destruct (_ =? 60) in Hc;
      injection Hc as Hs _ _; rewrite Hs; tauto.
Qed.

(** C5. The reset routine sets seconds, minutes and hours to 0, and running
    it any number of times in a row, with nothing in between, gives the
    state that running it once gives. *)
Theorem C5_reset_idempotent (st : state) (n : nat) :
  counters (ISR_INT0_vect st) = (0, 0, 0)
  /\ counters (Nat.iter (S n) ISR_INT0_vect st) = (0, 0, 0)
  /\ Nat.iter (S n) ISR_INT0_vect st = ISR_INT0_vect st.
Proof.
  assert (H : Nat.iter (S n) ISR_INT0_vect st = ISR_INT0_vect st)
    by apply iter_idemp, INT0_idemp.
  rewrite H. auto using counters_INT0.
Qed.

(** X17. In a state where [CS11] is clear the pause routine leaves all
    three clock-select bits of the timer clear, so that no timer period
    raises a tick any more; in every state it leaves seconds, minutes and
    hours as they are, and running it twice in a row gives the state that
    running it once gives. *)
Theorem X17_pause_effect (st : state) :
  (Z.testbit (read TCCR1B st) CS11 = false ->
   timer_running (ISR_INT1_vect st) = false
   /\ forall n : nat,
        Nat.iter n timer_period (ISR_INT1_vect st) = ISR_INT1_vect st)
  /\ counters (ISR_INT1_vect st) = counters st
  /\ ISR_INT1_vect (ISR_INT1_vect st) = ISR_INT1_vect st.
Proof.
  split; [| split; [reflexivity | apply INT1_idemp]].
  intros H11. pose proof (timer_stopped_INT1 st H11) as Hstop.
  split; [done |]. intros n. by apply iter_timer_period_stopped.
Qed.

(** C9 (as amended). With minutes = 59, seconds = 59 and hours = h in
    0..59, one tick followed by two normalisation passes gives seconds 0,
    minutes 0 and hours (h + 1) mod 60: h + 1 for h up to 58, and 0 for
    h = 59, where the hours wrap. *)
Theorem C9_minute_hour_carry (st : state) :
  g_seconds st = 59 -> g_minutes st = 59 -> 0 <= g_hours st <= 59 ->
  counters
    (carry_normalization (carry_normalization (ISR_TIMER1_COMPA_vect st)))
  = (0, 0, (g_hours st + 1) mod 60).
Proof.
  intros Hs Hm Hh.
  rewrite !counters_carry_normalization, counters_TIMER1_COMPA, Hs, Hm.
  change (incr8 59) with 60.
  unfold normalize_spec at 2. change (60 =? 60) with true.
  cbn match. change (incr8 59 =? 60) with true. cbn match.
  rewrite incr8_small by lia.
  destruct (Z.eqb_spec (g_hours st + 1) 60) as [H60 | H60].
  - rewrite H60. reflexivity.
  - rewrite Z.mod_small by lia. apply normalize_spec_fixed; lia.
Qed.

End Interrupts.

(** ** Every routine keeps the state well typed *)

Lemma well_typed_spec st :
  well_typed st = true <->
  (0 <= g_seconds st < 256 /\ 0 <= g_minutes st < 256
   /\ 0 <= g_hours st < 256
   /\ forall r, 0 <= read r st < 2 ^ reg_width r).
Proof.
  unfold well_typed, byte_range, reg_range.
  rewrite !andb_true_iff, forallb_forall. split.
  - intros [[[Hs Hm] Hh] Hr].
    split; [lia |]. split; [lia |]. split; [lia |].
    intros r. assert (Hin : In r all_regs) by (destruct r; simpl; tauto).
    specialize (Hr r Hin). apply andb_true_iff in Hr. lia.
  - intros (Hs & Hm & Hh & Hr).
    repeat split; try lia.
    intros r _. specialize (Hr r). apply andb_true_iff. lia.
Qed.

Lemma typing_seq c1 c2 :
  preserves_typing c1 -> preserves_typing c2 -> preserves_typing (seq c1 c2).
Proof. intros H1 H2 st Hst. unfold seq. by apply H2, H1. Qed.

Lemma typing_when b c : preserves_typing c -> preserves_typing (when b c).
Proof. intros Hc st Hst. unfold when. destruct (b st); [by apply Hc | done]. Qed.

Lemma typing_delay_us us : preserves_typing (_delay_us us).
Proof. by intros st Hst. Qed.

Lemma typing_reg_assign r e : preserves_typing (reg_assign r e).
Proof.
  intros st Hst. apply well_typed_spec in Hst as (Hs & Hm & Hh & Hr).
  apply well_typed_spec. unfold reg_assign.
  split; [done |]. split; [done |]. split; [done |].
  intros r'. destruct (decide (r = r')) as [<- | Hne].
  - rewrite read_write_eq. apply wrap_range, reg_width_nonneg.
  - rewrite read_write_ne by done. apply Hr.
Qed.

Lemma typing_reg_or r m : preserves_typing (reg_or r m).
Proof. apply typing_reg_assign. Qed.

Lemma typing_reg_and r m : preserves_typing (reg_and r m).
Proof. apply typing_reg_assign. Qed.

Lemma typing_seconds_assign e : preserves_typing (seconds_assign e).
Proof.
  intros st Hst. apply well_typed_spec in Hst as (Hs & Hm & Hh & Hr).
  apply well_typed_spec. unfold seconds_assign; simpl.
  pose proof (wrap8_range (e st)). auto.
Qed.

Lemma typing_minutes_assign e : preserves_typing (minutes_assign e).
Proof.
  intros st Hst. apply well_typed_spec in Hst as (Hs & Hm & Hh & Hr).
  apply well_typed_spec. unfold minutes_assign; simpl.
  pose proof (wrap8_range (e st)). auto.
Qed.

Lemma typing_hours_assign e : preserves_typing (hours_assign e).
Proof.
  intros st Hst. apply well_typed_spec in Hst as (Hs & Hm & Hh & Hr).
  apply well_typed_spec. unfold hours_assign; simpl.
  pose proof (wrap8_range (e st)). auto.
Qed.

Ltac typing :=
  lazymatch goal with
  | |- preserves_typing (seq _ _) => apply typing_seq; typing
  | |- preserves_typing (when _ _) => apply typing_when; typing
  | |- preserves_typing (_delay_us _) => apply typing_delay_us
  | |- preserves_typing (reg_or _ _) => apply typing_reg_or
  | |- preserves_typing (reg_and _ _) => apply typing_reg_and
  | |- preserves_typing (reg_assign _ _) => apply typing_reg_assign
  | |- preserves_typing (seconds_assign _) => apply typing_seconds_assign
  | |- preserves_typing (minutes_assign _) => apply typing_minutes_assign
  | |- preserves_typing (hours_assign _) => apply typing_hours_assign
  end.

Section Typing.
Context {hdr : IoHeader}.

Lemma typing_exec r : preserves_typing (exec r).
Proof.
  destruct r; cbn [exec];
    unfold ISR_INT0_vect, ISR_INT1_vect, ISR_INT2_vect, ISR_TIMER1_COMPA_vect,
      main_init, main_loop_body, carry_normalization, sei,
      INT0_Init, INT1_Init, INT2_Init, TIMER1_CTC_Init,
      Display_Seconds, Display_Minutes, Display_Hours,
      Display_Seconds_ones, Display_Seconds_tens, Display_Minutes_ones,
      Display_Minutes_tens, Display_Hours_ones, Display_Hours_tens;
    typing.
Qed.

Lemma typing_step e : preserves_typing (step e).
Proof.
  destruct e; simpl.
  - apply (typing_exec R_INT0_vect).
  - apply (typing_exec R_INT1_vect).
  - apply (typing_exec R_INT2_vect).
  - apply (typing_exec R_TIMER1_COMPA_vect).
  - apply (typing_exec R_main_loop_body).
Qed.

Lemma typing_run tr : preserves_typing (run tr).
Proof.
  induction tr as [| e tr IH]; intros st Hst; simpl; [done |].
  by apply IH, typing_step.
Qed.

(** Every state the program reaches from a well-typed power-on state is
    well typed. *)
Lemma well_typed_reachable regs tr :
  well_typed (power_on regs) = true ->
  well_typed (run tr (startup (power_on regs))) = true.
Proof.
  intros H. apply typing_run. by apply (typing_exec R_main_init).
Qed.

(** The first carry on its own: from seconds = 59 and minutes below 59, one
    tick and one normalisation pass give seconds 0 and minutes + 1. *)
Lemma seconds_carry st :
  g_seconds st = 59 -> 0 <= g_minutes st < 59 -> g_hours st <> 60 ->
  counters (carry_normalization (ISR_TIMER1_COMPA_vect st))
  = (0, g_minutes st + 1, g_hours st).
Proof.
  intros Hs Hm Hh.
  rewrite counters_carry_normalization, counters_TIMER1_COMPA, Hs.
  change (incr8 59) with 60. unfold normalize_spec.
  change (60 =? 60) with true. cbn match.
  rewrite incr8_small by lia.
  destruct (Z.eqb_spec (g_minutes st + 1) 60); [lia |].
  destruct (Z.eqb_spec (g_hours st) 60); [lia | reflexivity].
Qed.

End Typing.

(** ** Further properties of the clock *)

Lemma normalize_spec_no_60 c :
  let '(s, m, h) := normalize_spec c in s <> 60 /\ m <> 60 /\ h <> 60.
Proof.
  destruct c as [[s m] h]. unfold normalize_spec.
  destruct (Z.eqb_spec s 60) as [Hs | Hs].
  - destruct (Z.eqb_spec (incr8 m) 60) as [Hm | Hm].
    + destruct (Z.eqb_spec (incr8 h) 60); repeat split; lia.
    + destruct (Z.eqb_spec h 60); repeat split; lia.
  - destruct (Z.eqb_spec m 60) as [Hm | Hm].
    + destruct (Z.eqb_spec (incr8 h) 60); repeat split; lia.
    + destruct (Z.eqb_spec h 60); repeat split; lia.
Qed.

Lemma normalize_spec_idemp c :
  normalize_spec (normalize_spec c) = normalize_spec c.
Proof.
  pose proof (normalize_spec_no_60 c) as H.
  destruct (normalize_spec c) as [[s m] h]. destruct H as (Hs & Hm & Hh).
  by apply normalize_spec_fixed.
Qed.

(** X1. A second normalisation pass never changes anything: whatever the
    state, running [carry_normalization] twice gives the state that running
    it once gives. *)
Theorem X1_carry_normalization_idempotent (st : state) :
  carry_normalization (carry_normalization st) = carry_normalization st.
Proof.
  apply state_eq.
  - rewrite !counters_carry_normalization. apply normalize_spec_idemp.
  - by rewrite !io_carry_normalization.
Qed.

Lemma clock_of_decompose s m q :
  0 <= s < 60 -> 0 <= m < 60 ->
  clock_of (3600 * q + 60 * m + s) = (s, m, q mod 60).
Proof.
  intros Hs Hm. unfold clock_of.
  assert (H1 : (3600 * q + 60 * m + s) mod 60 = s).
  { replace (3600 * q + 60 * m + s) with (s + (60 * q + m) * 60) by lia.
    rewrite Z.mod_add by lia. by apply Z.mod_small. }
  assert (H2 : (3600 * q + 60 * m + s) / 60 = 60 * q + m).
  { replace (3600 * q + 60 * m + s) with (s + (60 * q + m) * 60) by lia.
    rewrite Z.div_add by lia. rewrite Z.div_small by lia. lia. }
  assert (H3 : (3600 * q + 60 * m + s) / 3600 = q).
  { replace (3600 * q + 60 * m + s) with ((60 * m + s) + q * 3600) by lia.
    rewrite Z.div_add by lia. rewrite Z.div_small by lia. lia. }
  rewrite H1, H2, H3. f_equal. f_equal.
  replace (60 * q + m) with (m + q * 60) by lia.
  rewrite Z.mod_add by lia. by apply Z.mod_small.
Qed.

Lemma clock_of_elapsed c :
  (let '(s, m, h) := c in 0 <= s <= 59 /\ 0 <= m <= 59 /\ 0 <= h <= 59) ->
  clock_of (elapsed c) = c.
Proof.
  destruct c as [[s m] h]. intros (Hs & Hm & Hh). unfold elapsed.
  rewrite clock_of_decompose by lia. f_equal. apply Z.mod_small. lia.
Qed.

Lemma succ_mod_60 q :
  (q + 1) mod 60 = if q mod 60 + 1 =? 60 then 0 else q mod 60 + 1.
Proof.
  pose proof (Z.mod_pos_bound q 60 ltac:(lia)) as Hb.
  pose proof (Z.div_mod q 60 ltac:(lia)) as Hq.
  destruct (Z.eqb_spec (q mod 60 + 1) 60) as [H60 | H60].
  - replace (q + 1) with (0 + (q / 60 + 1) * 60) by lia.
    rewrite Z.mod_add by lia. reflexivity.
  - replace (q + 1) with ((q mod 60 + 1) + (q / 60) * 60) by lia.
    rewrite Z.mod_add by lia. apply Z.mod_small. lia.
Qed.

(** One tick and one loop iteration move the clock on by one second. *)
Lemma tick_loop_clock_of t :
  0 <= t ->
  counters_step EvLoop (counters_step EvTick (clock_of t)) = clock_of (t + 1).
Proof.
  intros Ht.
  pose proof (Z.div_mod t 3600 ltac:(lia)) as Hq.
  pose proof (Z.mod_pos_bound t 3600 ltac:(lia)) as Hr.
  set (q := t / 3600) in *. set (r := t mod 3600) in *.
  pose proof (Z.div_mod r 60 ltac:(lia)) as Hm.
  pose proof (Z.mod_pos_bound r 60 ltac:(lia)) as Hs.
  assert (Hmb : 0 <= r / 60 < 60).
  { split; [apply Z.div_pos; lia | apply Z.div_lt_upper_bound; lia]. }
  set (m := r / 60) in *. set (s := r mod 60) in *.
  assert (Et : t = 3600 * q + 60 * m + s) by lia.
  pose proof (Z.mod_pos_bound q 60 ltac:(lia)) as Hh.
  rewrite Et. rewrite clock_of_decompose by lia.
  simpl counters_step. unfold normalize_spec.
  rewrite (incr8_small s) by lia.
  destruct (Z.eqb_spec (s + 1) 60) as [Hs60 | Hs60].
  - rewrite (incr8_small m) by lia.
    destruct (Z.eqb_spec (m + 1) 60) as [Hm60 | Hm60].
    + rewrite (incr8_small (q mod 60)) by lia.
      replace (3600 * q + 60 * m + s + 1) with (3600 * (q + 1) + 60 * 0 + 0)
        by lia.
      rewrite clock_of_decompose by lia. by rewrite succ_mod_60.
    + replace (3600 * q + 60 * m + s + 1) with (3600 * q + 60 * (m + 1) + 0)
        by lia.
      rewrite clock_of_decompose by lia.
      destruct (Z.eqb_spec (q mod 60) 60); [lia | reflexivity].
  - replace (3600 * q + 60 * m + s + 1) with (3600 * q + 60 * m + (s + 1))
      by lia.
    rewrite clock_of_decompose by lia.
    destruct (Z.eqb_spec m 60); [lia |].
    destruct (Z.eqb_spec (q mod 60) 60); [lia | reflexivity].
Qed.

Lemma ticks_with_loop_clock_of n : forall t,
  0 <= t ->
  counters_run (ticks_with_loop n) (clock_of t) = clock_of (t + Z.of_nat n).
Proof.
  induction n as [| n IH]; intros t Ht.
  - simpl. f_equal. lia.
  - cbn [ticks_with_loop counters_run].
    rewrite tick_loop_clock_of by done. rewrite IH by lia. f_equal. lia.
Qed.

Section Runs.
Context {hdr : IoHeader}.

(** X2. The stop watch keeps time: from counters within 0..59 that stand
    for [t] seconds, [n] ticks, the main loop completing an iteration after
    each, leave the counters at the seconds, minutes and hours of [t + n]
    seconds, the hours counted modulo 60 (so that the clock is back at
    0:00:00 after 216000 ticks). *)
Theorem X2_paced_ticks_keep_time (st : state) (n : nat) :
  counters_in_range st ->
  counters (run (ticks_with_loop n) st)
  = clock_of (elapsed (counters st) + Z.of_nat n).
Proof.
  intros (Hs & Hm & Hh).
  rewrite counters_run_sound.
  rewrite <- (clock_of_elapsed (counters st)) at 1 by done.
  apply ticks_with_loop_clock_of. unfold elapsed, counters. lia.
Qed.

Lemma counters_step_minutes_hours e c :
  (let '(s, m, h) := c in 0 <= s <= 255 /\ 0 <= m <= 59 /\ 0 <= h <= 59) ->
  let '(s, m, h) := counters_step e c in
  0 <= s <= 255 /\ 0 <= m <= 59 /\ 0 <= h <= 59.
Proof.
  destruct c as [[s m] h]. intros (Hs & Hm & Hh).
  destruct e; simpl; try lia.
  - pose proof (wrap8_range (s + 1)). unfold incr8. lia.
  - unfold normalize_spec.
    destruct (Z.eqb_spec s 60).
    + rewrite (incr8_small m) by lia.
      destruct (Z.eqb_spec (m + 1) 60).
      * rewrite (incr8_small h) by lia.
        destruct (Z.eqb_spec (h + 1) 60); lia.
      * destruct (Z.eqb_spec h 60); lia.
    + destruct (Z.eqb_spec m 60); [lia |].
      destruct (Z.eqb_spec h 60); lia.
Qed.

Lemma counters_run_minutes_hours tr : forall c,
  (let '(s, m, h) := c in 0 <= s <= 255 /\ 0 <= m <= 59 /\ 0 <= h <= 59) ->
  let '(s, m, h) := counters_run tr c in
  0 <= s <= 255 /\ 0 <= m <= 59 /\ 0 <= h <= 59.
Proof.
  induction tr as [| e tr IH]; intros c Hc; simpl; [done |].
  apply IH. by apply counters_step_minutes_hours.
Qed.

(** X3. Minutes and hours never leave 0..59, however the events interleave
    and however many ticks come between two loop iterations: in every state
    reached from power-on, between events, minutes and hours are within
    0..59 and seconds within 0..255. *)
Theorem X3_minutes_hours_always_in_range (regs : gmap reg Z) (tr : list event) :
  let st := run tr (startup (power_on regs)) in
  0 <= g_seconds st <= 255
  /\ 0 <= g_minutes st <= 59
  /\ 0 <= g_hours st <= 59.
Proof.
  intros st.
  pose proof (counters_run_minutes_hours tr (0, 0, 0)) as H.
  assert (Hc : counters st = counters_run tr (0, 0, 0)).
  { unfold st. rewrite counters_run_sound. unfold startup.
    by rewrite counters_main_init. }
  rewrite <- Hc in H. apply H. lia.
Qed.

Lemma counters_run_loops n c :
  (let '(s, m, h) := c in s <> 60 /\ m <> 60 /\ h <> 60) ->
  counters_run (repeat EvLoop n) c = c.
Proof.
  destruct c as [[s m] h]. intros (Hs & Hm & Hh).
  induction n as [| n IH]; [reflexivity |].
  cbn [repeat counters_run counters_step].
  by rewrite normalize_spec_fixed.
Qed.

(** X4. A carry is missed when two ticks come between two loop iterations
    at seconds = 59: the seconds counter passes 60 unseen, and however many
    loop iterations follow, seconds stay at 61 and minutes and hours stay as
    they were. *)
Theorem X4_overrun_misses_carry (st : state) (n : nat) :
  g_seconds st = 59 -> g_minutes st <> 60 -> g_hours st <> 60 ->
  counters (run ([EvTick; EvTick] ++ repeat EvLoop n) st)
  = (61, g_minutes st, g_hours st).
Proof.
  intros Hs Hm Hh. rewrite counters_run_sound.
  unfold counters. rewrite Hs.
  cbn [app counters_run counters_step].
  change (incr8 (incr8 59)) with 61.
  apply counters_run_loops. lia.
Qed.

Lemma counters_run_quiet tr : forall c,
  forallb quiet tr = true ->
  (let '(s, m, h) := c in s <> 60 /\ m <> 60 /\ h <> 60) ->
  counters_run tr c = c.
Proof.
  induction tr as [| e tr IH]; intros c Hq Hc; [reflexivity |].
  cbn [forallb] in Hq. apply andb_true_iff in Hq as [He Hq].
  cbn [counters_run].
  assert (Hstep : counters_step e c = c).
  { destruct e; try discriminate; try reflexivity.
    destruct c as [[s m] h]. destruct Hc as (? & ? & ?).
    by apply normalize_spec_fixed. }
  rewrite Hstep. by apply IH.
Qed.

(** X5. Without a tick or a reset the time stands still: when no counter
    stands at 60, any sequence of pause, resume and loop-iteration events
    leaves seconds, minutes and hours as they are. *)
Theorem X5_quiet_events_keep_counters (st : state) (tr : list event) :
  forallb quiet tr = true ->
  g_seconds st <> 60 -> g_minutes st <> 60 -> g_hours st <> 60 ->
  counters (run tr st) = counters st.
Proof.
  intros Hq Hs Hm Hh. rewrite counters_run_sound.
  by apply counters_run_quiet.
Qed.

(** X6. The clock does not depend on the registers: two states with the
    same counters have the same counters after the same events, whatever
    their registers hold. *)
Theorem X6_counters_independent_of_registers (st1 st2 : state) (tr : list event) :
  counters st1 = counters st2 ->
  counters (run tr st1) = counters (run tr st2).
Proof. intros H. by rewrite !counters_run_sound, H. Qed.

(** X16. A reset restarts the count from any state, also from one in which
    a carry was missed: after a reset, [n] ticks with a loop iteration after
    each leave the counters at the seconds, minutes and hours of [n]
    seconds. *)
Theorem X16_reset_restarts_count (st : state) (n : nat) :
  counters (run (EvReset :: ticks_with_loop n) st) = clock_of (Z.of_nat n).
Proof.
  rewrite counters_run_sound. cbn [counters_run counters_step].
  change (0, 0, 0) with (clock_of 0).
  by rewrite ticks_with_loop_clock_of.
Qed.

End Runs.

(** ** Further properties of the timer control *)

Lemma reg_or_commute r r' m m' st :
  r <> r' -> reg_or r m (reg_or r' m' st) = reg_or r' m' (reg_or r m st).
Proof.
  intros Hne. unfold reg_or, reg_assign.
  rewrite !read_write_ne by done. by apply write_commute.
Qed.

(** Closing a goal on bits once [Z.testbit] has been pushed to the
    registers' old contents and the masks are single bits. *)
Ltac push_testbit :=
  cbn [reg_width];
  repeat first
    [ rewrite wrap_testbit by lia
    | rewrite wrap8_testbit
    | rewrite Z.lor_spec
    | rewrite Z.land_spec
    | rewrite Z.lnot_spec by lia
    | rewrite bit_testbit by lia ].

Ltac bool_cases :=
  repeat match goal with
    | |- context [Z.testbit ?a ?b] => destruct (Z.testbit a b)
    | |- context [?a =? ?b] => destruct (Z.eqb_spec a b)
    | |- context [?a <? ?b] => destruct (Z.ltb_spec a b)
    end;
  simpl; try reflexivity; try congruence; try lia.

Section TimerControl.
Context {hdr : IoHeader}.

Lemma INT2_idemp st : ISR_INT2_vect (ISR_INT2_vect st) = ISR_INT2_vect st.
Proof.
  unfold ISR_INT2_vect. unfold seq.
  rewrite (reg_or_commute GIFR TCCR1B) by done.
  by rewrite !reg_or_idemp.
Qed.

(** X7. The resume routine starts the timer whatever the state: afterwards
    [CS10] and [CS12] are set, every other bit of [TCCR1B] is as before and
    the counters are untouched; running it twice in a row gives the state
    that running it once gives. *)
Theorem X7_resume_effect (st : state) :
  timer_running (ISR_INT2_vect st) = true
  /\ Z.testbit (read TCCR1B (ISR_INT2_vect st)) CS10 = true
  /\ Z.testbit (read TCCR1B (ISR_INT2_vect st)) CS12 = true
  /\ counters (ISR_INT2_vect st) = counters st
  /\ (forall n, 0 <= n < 8 -> n <> CS10 -> n <> CS12 ->
      Z.testbit (read TCCR1B (ISR_INT2_vect st)) n
      = Z.testbit (read TCCR1B st) n)
  /\ ISR_INT2_vect (ISR_INT2_vect st) = ISR_INT2_vect st.
Proof.
  pose proof CS10_bit. pose proof CS12_bit.
  split; [apply timer_running_INT2 |].
  split.
  { rewrite testbit_TCCR1B_INT2 by lia. rewrite (Z.eqb_refl CS10).
    bool_cases. }
  split.
  { rewrite testbit_TCCR1B_INT2 by lia. rewrite (Z.eqb_refl CS12).
    bool_cases. }
  split; [reflexivity |].
  split; [| apply INT2_idemp].
  intros n Hn H10 H12. rewrite testbit_TCCR1B_INT2 by lia. bool_cases.
Qed.

(** X8. Pause and resume undo each other on the timer control register:
    when [TCCR1B] holds a byte with [CS10] and [CS12] set, as after
    [TIMER1_CTC_Init], a pause followed by a resume leaves [TCCR1B] exactly
    as it was; and a pause after a resume leaves it as a pause alone does. *)
Theorem X8_pause_resume_round_trip (st : state) :
  (0 <= read TCCR1B st < 256 ->
   Z.testbit (read TCCR1B st) CS10 = true ->
   Z.testbit (read TCCR1B st) CS12 = true ->
   read TCCR1B (ISR_INT2_vect (ISR_INT1_vect st)) = read TCCR1B st)
  /\ read TCCR1B (ISR_INT1_vect (ISR_INT2_vect st))
     = read TCCR1B (ISR_INT1_vect st).
Proof.
  pose proof CS10_bit. pose proof CS12_bit.
  split.
  - intros Hb H10 H12. apply Z.bits_inj'; intros n Hn.
    rewrite testbit_TCCR1B_INT2, testbit_TCCR1B_INT1 by lia.
    destruct (Z.ltb_spec n 8) as [Hlt | Hge].
    + destruct (Z.eqb_spec CS10 n) as [<- | ?]; [by rewrite H10, orb_true_r |].
      destruct (Z.eqb_spec CS12 n) as [<- | ?]; [by rewrite H12, orb_true_r |].
      simpl. by rewrite !andb_true_r, !orb_false_r.
    + simpl. symmetry. apply (testbit_high _ 8); lia.
  - apply Z.bits_inj'; intros n Hn.
    rewrite !testbit_TCCR1B_INT1, testbit_TCCR1B_INT2 by lia. bool_cases.
Qed.

Lemma TCCR1B_startup st :
  read TCCR1B (startup st)
  = wrap8 (Z.lor (read TCCR1B st)
             (Z.lor (Z.lor (bit WGM12) (bit CS10)) (bit CS12))).
Proof.
  unfold startup, main_init, sei, INT0_Init, INT1_Init, INT2_Init,
    TIMER1_CTC_Init. by reads.
Qed.

Lemma timer_running_startup st : timer_running (startup st) = true.
Proof.
  pose proof CS10_bit. pose proof CS12_bit. pose proof WGM12_bit.
  unfold timer_running. rewrite TCCR1B_startup. push_testbit.
  rewrite (Z.eqb_refl CS10).
  destruct (Z.ltb_spec CS10 8); [| lia].
  simpl. by rewrite !orb_true_r.
Qed.

Lemma timer_running_step e st :
  Z.testbit (read TCCR1B st) CS11 = false ->
  timer_running (step e st)
  = match e with
    | EvPause => false
    | EvResume => true
    | _ => timer_running st
    end.
Proof.
  intros H11. destruct e; simpl.
  - unfold timer_running. by rewrite TCCR1B_INT0.
  - by apply timer_stopped_INT1.
  - apply timer_running_INT2.
  - apply timer_running_TIMER1_COMPA.
  - unfold timer_running. by rewrite read_main_loop_body.
Qed.

Lemma timer_running_run tr : forall st,
  Z.testbit (read TCCR1B st) CS11 = false ->
  timer_running (run tr st) = run_state (timer_running st) tr.
Proof.
  induction tr as [| e tr IH]; intros st H11; [reflexivity |].
  cbn [run]. rewrite IH by (by apply CS11_clear_step).
  rewrite timer_running_step by done. by destruct e.
Qed.

(** X9. Whether the timer counts is decided by the last pause or resume:
    after any events from start-up (the hardware having left [CS11] clear
    at power-on), the timer runs unless the last of the pause and resume
    events was a pause; reset, tick and loop iterations do not change it. *)
Theorem X9_timer_runs_unless_paused (regs : gmap reg Z) (tr : list event) :
  Z.testbit (read TCCR1B (power_on regs)) CS11 = false ->
  timer_running (run tr (startup (power_on regs))) = run_state true tr.
Proof.
  intros H11. rewrite timer_running_run by (by apply CS11_clear_startup).
  by rewrite timer_running_startup.
Qed.

Lemma TCCR1A_step e st : read TCCR1A (step e st) = read TCCR1A st.
Proof.
  destruct e; simpl.
  - unfold ISR_INT0_vect; unfold_cmds. unfold read at 1; simpl.
    by rewrite lookup_insert_ne.
  - unfold ISR_INT1_vect; unfold_cmds. unfold read at 1; simpl.
    by rewrite !lookup_insert_ne.
  - unfold ISR_INT2_vect; unfold_cmds. unfold read at 1; simpl.
    by rewrite !lookup_insert_ne.
  - unfold ISR_TIMER1_COMPA_vect; unfold_cmds. unfold read at 1; simpl.
    by rewrite lookup_insert_ne.
  - by rewrite read_main_loop_body.
Qed.

Lemma TCCR1B_other_bits_step e st n :
  0 <= n < 8 -> n <> CS10 -> n <> CS12 ->
  Z.testbit (read TCCR1B (step e st)) n = Z.testbit (read TCCR1B st) n.
Proof.
  intros Hn H10 H12. destruct e; simpl.
  - by rewrite TCCR1B_INT0.
  - rewrite testbit_TCCR1B_INT1 by lia. bool_cases.
  - rewrite testbit_TCCR1B_INT2 by lia. bool_cases.
  - by rewrite TCCR1B_TIMER1_COMPA.
  - by rewrite read_main_loop_body.
Qed.

Lemma TCCR1A_run tr : forall st, read TCCR1A (run tr st) = read TCCR1A st.
Proof.
  induction tr as [| e tr IH]; intros st; [done |].
  cbn [run]. by rewrite IH, TCCR1A_step.
Qed.

Lemma TCCR1B_other_bits_run tr : forall st n,
  0 <= n < 8 -> n <> CS10 -> n <> CS12 ->
  Z.testbit (read TCCR1B (run tr st)) n = Z.testbit (read TCCR1B st) n.
Proof.
  induction tr as [| e tr IH]; intros st n Hn H10 H12; [done |].
  cbn [run]. rewrite IH by assumption.
  by apply TCCR1B_other_bits_step.
Qed.

(** X10. No event changes the mode bits of the timer: after any events
    from start-up [TCCR1A] holds what it held when [main] entered its loop,
    and so does every bit of [TCCR1B] other than [CS10] and [CS12]; in
    particular [WGM12], which [TIMER1_CTC_Init] sets, is still set (the
    header giving [WGM12] a bit other than [CS10] and [CS12]). *)
Theorem X10_timer_mode_bits_kept (regs : gmap reg Z) (tr : list event) :
  read TCCR1A (run tr (startup (power_on regs)))
  = read TCCR1A (startup (power_on regs))
  /\ (forall n, 0 <= n < 8 -> n <> CS10 -> n <> CS12 ->
      Z.testbit (read TCCR1B (run tr (startup (power_on regs)))) n
      = Z.testbit (read TCCR1B (startup (power_on regs))) n)
  /\ (WGM12 <> CS10 -> WGM12 <> CS12 ->
      Z.testbit (read TCCR1B (run tr (startup (power_on regs)))) WGM12
      = true).
Proof.
  pose proof WGM12_bit.
  pose proof (TCCR1A_run tr) as HA.
  pose proof (TCCR1B_other_bits_run tr) as HB.
  split; [apply HA |]. split; [apply HB |].
  intros H10 H12. rewrite HB by (done || lia).
  rewrite TCCR1B_startup. pose proof CS10_bit. pose proof CS12_bit.
  push_testbit. rewrite (Z.eqb_refl WGM12).
  destruct (Z.ltb_spec WGM12 8); [| lia].
  simpl. by rewrite !orb_true_r.
Qed.

(** X11. [TIMER1_CTC_Init] leaves the timer counting, with [WGM12] set,
    from 0 towards the compare value 976 with its compare interrupt
    enabled, whatever the registers held before, and does not touch the
    counters. *)
Theorem X11_TIMER1_CTC_Init_effect (st : state) :
  bit_number FOC1A -> bit_number OCIE1A ->
  timer_running (TIMER1_CTC_Init st) = true
  /\ Z.testbit (read TCCR1B (TIMER1_CTC_Init st)) WGM12 = true
  /\ read TCNT1 (TIMER1_CTC_Init st) = 0
  /\ read OCR1A (TIMER1_CTC_Init st) = 976
  /\ Z.testbit (read TIMSK (TIMER1_CTC_Init st)) OCIE1A = true
  /\ Z.testbit (read TCCR1A (TIMER1_CTC_Init st)) FOC1A = true
  /\ counters (TIMER1_CTC_Init st) = counters st.
Proof.
  unfold bit_number. intros Hf Ho.
  pose proof CS10_bit. pose proof CS12_bit. pose proof WGM12_bit.
  unfold timer_running.
  unfold TIMER1_CTC_Init; unfold_cmds. simpl_reads.
  repeat split.
  - push_testbit. rewrite (Z.eqb_refl CS10).
    destruct (Z.ltb_spec CS10 8); [| lia]. simpl. by rewrite !orb_true_r.
  - push_testbit. rewrite (Z.eqb_refl WGM12).
    destruct (Z.ltb_spec WGM12 8); [| lia]. simpl. by rewrite !orb_true_r.
  - push_testbit. rewrite (Z.eqb_refl OCIE1A).
    destruct (Z.ltb_spec OCIE1A 8); [| lia]. simpl. by rewrite !orb_true_r.
  - push_testbit. rewrite (Z.eqb_refl FOC1A).
    destruct (Z.ltb_spec FOC1A 8); [| lia]. simpl. by rewrite !orb_true_r.
Qed.

End TimerControl.

(** ** Further properties of start-up, display and frames *)

Section Startup.
Context {hdr : IoHeader}.

(** X12. The set-up code of [main] composes without one step undoing
    another: when [main] enters its loop all three external interrupts are
    enabled in [GICR], the global interrupt bit is set, the edge-select
    bits [ISC01], [ISC10], [ISC11] are set and [ISC2] is clear, the three
    button pins are inputs ([PD2] and [PB2] with their pull-up on), and the
    six enable pins of [PORTA] and the four digit pins of [PORTC] are
    outputs. *)
Theorem X12_main_init_setup (st : state) :
  setup_bit_numbers ->
  let st' := main_init st in
  (Z.testbit (read GICR st') INT0 = true
   /\ Z.testbit (read GICR st') INT1 = true
   /\ Z.testbit (read GICR st') INT2 = true)
  /\ Z.testbit (read SREG st') SREG_I = true
  /\ (Z.testbit (read MCUCR st') ISC01 = true
      /\ Z.testbit (read MCUCR st') ISC10 = true
      /\ Z.testbit (read MCUCR st') ISC11 = true
      /\ Z.testbit (read MCUCSR st') ISC2 = false)
  /\ (Z.testbit (read DDRD st') PD2 = false
      /\ Z.testbit (read DDRD st') PD3 = false
      /\ Z.testbit (read PORTD st') PD2 = true
      /\ Z.testbit (read DDRB st') PB2 = false
      /\ Z.testbit (read PORTB st') PB2 = true)
  /\ (Z.land (read DDRA st') 0x3F = 0x3F
      /\ Z.land (read DDRC st') 0x0F = 0x0F).
Proof.
  unfold setup_bit_numbers, bit_number.
  intros (H0 & H1 & H2 & HI & H01 & H10 & H11 & Hi2 & Hd2 & Hd3 & Hb2).
  unfold main_init, sei, INT0_Init, INT1_Init, INT2_Init,
    TIMER1_CTC_Init. reads.
  split; [| split; [| split; [| split]]].
  - split; [| split]; push_testbit; rewrite Z.eqb_refl; bool_cases.
  - push_testbit; rewrite Z.eqb_refl; bool_cases.
  - split; [| split; [| split]]; push_testbit; rewrite Z.eqb_refl; bool_cases.
  - split; [| split; [| split; [| split]]]; push_testbit;
      rewrite ?Z.eqb_refl; bool_cases.
  - split; apply Z.bits_inj'; intros n Hn; push_testbit;
      rewrite ?testbit_0x0F by lia.
    + assert (H3F : Z.testbit 0x3F n = (n <? 6)).
      { destruct (Z.ltb_spec n 6) as [Hlt | Hge].
        - assert (n = 0 \/ n = 1 \/ n = 2 \/ n = 3 \/ n = 4 \/ n = 5)
            as [-> | [-> | [-> | [-> | [-> | ->]]]]] by lia; reflexivity.
        - apply (testbit_high 0x3F 6 n); lia. }
      rewrite H3F. bool_cases.
    + bool_cases.
Qed.

End Startup.

Lemma PORTA_high_display f st n :
  6 <= n < 8 ->
  Z.testbit (read PORTA (display f st)) n = Z.testbit (read PORTA st) n.
Proof.
  intros Hn. destruct (position_ranges f) as [Ho Ht].
  rewrite display_two_halves, PORTA_display_tens, PORTA_display_ones.
  rewrite !enable_write_testbit by lia.
  destruct (Z.ltb_spec n 6), (Z.ltb_spec n 8); try lia. reflexivity.
Qed.

Lemma PORTC_display f st :
  0 <= field_value f st < 160 ->
  Z.land (read PORTC (display f st)) 0xF0 = Z.land (read PORTC st) 0xF0
  /\ Z.land (read PORTC (display f st)) 0x0F = field_value f st / 10.
Proof.
  intros Hv.
  rewrite display_two_halves, PORTC_display_tens, field_value_display_ones,
    PORTC_display_ones.
  rewrite Z.quot_div_nonneg, Z.rem_mod_nonneg by lia.
  assert (Hd : 0 <= field_value f st mod 10 < 16).
  { pose proof (Z.mod_pos_bound (field_value f st) 10). lia. }
  assert (Hq : 0 <= field_value f st / 10 < 16).
  { split; [apply Z.div_pos; lia | apply Z.div_lt_upper_bound; lia]. }
  split; [| by apply digit_write_low].
  rewrite digit_write_high by done.
  rewrite <- (digit_write_high (read PORTC st) (field_value f st mod 10)) at 2
    by done.
  apply Z.bits_inj'; intros n Hn.
  rewrite !Z.land_spec, !wrap8_testbit. bool_cases.
Qed.

Lemma field_value_display f g st :
  field_value f (display g st) = field_value f st.
Proof. destruct f, g; reflexivity. Qed.

(** X13. What one iteration of the main loop leaves on the ports: exactly
    one display position is enabled, the tens digit of the hours
    (position 5); bits 6 and 7 of [PORTA] and every register other than
    [PORTA] and [PORTC] are as before the iteration; and when the
    normalised counters are within 0..59, the upper four bits of [PORTC]
    are as before and its lower four hold the tens digit of the hours. *)
Theorem X13_main_loop_ports (st : state) :
  enabled_positions (read PORTA (main_loop_body st)) = [5]
  /\ (forall n, 6 <= n < 8 ->
      Z.testbit (read PORTA (main_loop_body st)) n
      = Z.testbit (read PORTA st) n)
  /\ (forall r, r <> PORTA -> r <> PORTC ->
      read r (main_loop_body st) = read r st)
  /\ (counters_in_range (carry_normalization st) ->
      Z.land (read PORTC (main_loop_body st)) 0xF0
      = Z.land (read PORTC st) 0xF0
      /\ Z.land (read PORTC (main_loop_body st)) 0x0F
         = g_hours (carry_normalization st) / 10).
Proof.
  change (main_loop_body st)
    with (display Hours (display Minutes (display Seconds
            (carry_normalization st)))).
  set (st0 := carry_normalization st).
  split; [| split; [| split]].
  - rewrite display_two_halves, PORTA_display_tens.
    by apply enabled_positions_one_hot.
  - intros n Hn. rewrite !PORTA_high_display by done.
    unfold st0. by rewrite read_carry_normalization.
  - intros r Ha Hc. rewrite !read_display by done.
    apply read_carry_normalization.
  - intros (Hs & Hm & Hh).
    destruct (PORTC_display Seconds st0) as [Hs1 _]; [simpl; lia |].
    destruct (PORTC_display Minutes (display Seconds st0)) as [Hm1 _].
    { rewrite field_value_display. simpl. lia. }
    destruct (PORTC_display Hours (display Minutes (display Seconds st0)))
      as [Hh1 Hh2].
    { rewrite !field_value_display. simpl. lia. }
    rewrite !field_value_display in Hh2.
    split; [| exact Hh2].
    rewrite Hh1, Hm1, Hs1. unfold st0.
    by rewrite read_carry_normalization.
Qed.

(** X14. The two digits a display routine puts on the digit bus encode the
    counter: for a counter within 0..99 the lower four bits of [PORTC] hold
    a decimal digit after each half of the routine, and ten times the tens
    digit plus the ones digit is the counter. *)
Theorem X14_digits_encode_counter (f : field) (st : state) :
  0 <= field_value f st < 100 ->
  let ones := Z.land (read PORTC (display_ones f st)) 0x0F in
  let tens := Z.land (read PORTC (display f st)) 0x0F in
  0 <= ones <= 9 /\ 0 <= tens <= 9 /\ 10 * tens + ones = field_value f st.
Proof.
  intros Hv ones tens.
  assert (Ho : ones = field_value f st mod 10).
  { unfold ones. rewrite PORTC_display_ones, Z.rem_mod_nonneg by lia.
    apply digit_write_low.
    pose proof (Z.mod_pos_bound (field_value f st) 10). lia. }
  assert (Ht : tens = field_value f st / 10).
  { unfold tens. apply PORTC_display. lia. }
  pose proof (Z.mod_pos_bound (field_value f st) 10 ltac:(lia)).
  pose proof (Z.div_mod (field_value f st) 10 ltac:(lia)).
  assert (0 <= field_value f st / 10 <= 9).
  { split; [apply Z.div_pos; lia |].
    assert (field_value f st / 10 < 10)
      by (apply Z.div_lt_upper_bound; lia). lia. }
  lia.
Qed.

Section Frames.
Context {hdr : IoHeader}.

(** X15. No interrupt routine writes the display ports or any register
    other than its own flag register and the timer control: after reset,
    pause, resume or tick every register other than [GIFR], [TIFR] and
    [TCCR1B] is as before, and reset and tick leave [TCCR1B] as well. *)
Theorem X15_interrupts_frame (e : event) (st : state) :
  e <> EvLoop ->
  (forall r, r <> GIFR -> r <> TIFR -> r <> TCCR1B ->
     read r (step e st) = read r st)
  /\ (e <> EvPause -> e <> EvResume ->
      read TCCR1B (step e st) = read TCCR1B st).
Proof.
  intros He. split.
  - intros r Hg Ht Hc.
    destruct e; try congruence; simpl;
      unfold ISR_INT0_vect, ISR_INT1_vect, ISR_INT2_vect,
        ISR_TIMER1_COMPA_vect; unfold_cmds;
      unfold read at 1; simpl; by rewrite ?lookup_insert_ne.
  - intros Hp Hr. destruct e; try congruence; simpl.
    + apply TCCR1B_INT0.
    + apply TCCR1B_TIMER1_COMPA.
Qed.

End Frames.

(** ** Pause and resume while the main loop keeps running *)

Section PauseResume.
Context {hdr : IoHeader}.








End PauseResume.

(** ** Concrete runs, in the numbering of the ATmega32 header *)

#[local] Existing Instance atmega32.

(** C1 at a run of 59 ticks, each followed by a loop iteration, and a 60th
    tick: normalisation then finds seconds at 60 and carries. *)
Lemma C1_witness :
  paced false (ticks_with_loop 59 ++ [EvTick]) = true
  /\ counters_in_range
       (carry_normalization
          (run (ticks_with_loop 59 ++ [EvTick]) (startup (power_on ∅)))).
Proof.
  split; [reflexivity |].
  apply (C1_normalized_counters_in_range ∅ (ticks_with_loop 59 ++ [EvTick])).
  reflexivity.
Defined.

(** C2 at 2:05:10, where no counter stands at 60. *)
Lemma C2_witness : carry_normalization st_10_5_2 = st_10_5_2.
Proof.
  apply (C2_carry_normalization_spec st_10_5_2); simpl; lia.
Defined.

(** Each check is made once: from (60, 60, 0) the first check carries into
    minutes, which then stand at 61 and are not looked at again. *)
Example carry_checked_not_looped :
  counters
    (carry_normalization
       {| g_seconds := 60; g_minutes := 60; g_hours := 0; io := ∅ |})
  = (0, 61, 0).
Proof. reflexivity. Qed.

(** C3: after [Display_Minutes], position 3 is the one enabled, and bit 6
    of [PORTA] is as before. *)
Lemma C3_witness :
  Z.testbit (read PORTA (display Minutes st_positions_2_to_5)) 3 = true
  /\ Z.testbit (read PORTA (display Minutes st_positions_2_to_5)) 6
     = Z.testbit (read PORTA st_positions_2_to_5) 6.
Proof.
  split.
  - apply (proj1 (C3_display_enable_bus Minutes st_positions_2_to_5 3)). lia.
  - apply (proj2 (C3_display_enable_bus Minutes st_positions_2_to_5 6)). lia.
Defined.

(** The claim C3 as stated fails: position 2 belongs to the minutes, it is
    enabled before [Display_Seconds] runs and disabled after. *)
Lemma C3_counterexample :
  well_typed st_positions_2_to_5 = true
  /\ 2 <> ones_position Seconds /\ 2 <> tens_position Seconds
  /\ Z.testbit (read PORTA st_positions_2_to_5) 2 = true
  /\ Z.testbit (read PORTA (display Seconds st_positions_2_to_5)) 2 = false.
Proof. repeat split; by vm_compute. Qed.

(** C4 at 2:05:10. *)
Lemma C4_witness :
  g_seconds (ISR_TIMER1_COMPA_vect st_10_5_2) = 11
  /\ g_minutes (ISR_TIMER1_COMPA_vect st_10_5_2) = 5
  /\ g_hours (ISR_TIMER1_COMPA_vect st_10_5_2) = 2
  /\ forall r : routine, r <> R_TIMER1_COMPA_vect ->
       g_seconds (exec r st_10_5_2) = 10 \/ g_seconds (exec r st_10_5_2) = 0.
Proof.
  apply (C4_tick_effect st_10_5_2). reflexivity.
Defined.

(** The claim C4 as stated fails at the top of the counter's type: from 255
    the tick routine leaves seconds at 0, not at 256. *)
Lemma C4_counterexample :
  well_typed st_seconds_255 = true
  /\ g_seconds (ISR_TIMER1_COMPA_vect st_seconds_255) = 0
  /\ g_seconds (ISR_TIMER1_COMPA_vect st_seconds_255)
     <> g_seconds st_seconds_255 + 1.
Proof. repeat split; by vm_compute. Qed.




(** C8 from the state in which [main] enters its loop. *)
Lemma C8_witness :
  counters (run (ticks_with_loop 61) (startup (power_on ∅))) = (1, 1, 0).
Proof.
  apply (C8_sixty_one_ticks (startup (power_on ∅))). reflexivity.
Defined.

(** C9 at 7:59:59. *)
Lemma C9_witness :
  counters
    (carry_normalization
       (carry_normalization
          (ISR_TIMER1_COMPA_vect
             {| g_seconds := 59; g_minutes := 59; g_hours := 7; io := ∅ |})))
  = (0, 0, 8).
Proof.
  apply (C9_minute_hour_carry
           {| g_seconds := 59; g_minutes := 59; g_hours := 7; io := ∅ |});
    simpl; lia.
Defined.

(** The claim C9 as stated fails at hours = 59: the carry takes hours to 60
    and the third check of the same pass takes them to 0, not to 60. *)
Lemma C9_counterexample :
  well_typed st_59_59_59 = true
  /\ counters
       (carry_normalization
          (carry_normalization (ISR_TIMER1_COMPA_vect st_59_59_59)))
     = (0, 0, 0)
  /\ g_hours
       (carry_normalization
          (carry_normalization (ISR_TIMER1_COMPA_vect st_59_59_59)))
     <> g_hours st_59_59_59 + 1.
Proof. repeat split; by vm_compute. Qed.

(** C10 at 37 seconds: digit 7 then digit 3 on the lower half of [PORTC]. *)
Lemma C10_witness :
  let st := {| g_seconds := 37; g_minutes := 0; g_hours := 0;
               io := {[ PORTC := 0xA0 ]} |} in
  (Z.land (read PORTC (display_ones Seconds st)) 0xF0 = 0xA0
   /\ Z.land (read PORTC (display_ones Seconds st)) 0x0F = 7)
  /\ (Z.land (read PORTC (display_tens Seconds (display_ones Seconds st))) 0xF0
      = 0xA0
      /\ Z.land (read PORTC (display_tens Seconds (display_ones Seconds st)))
           0x0F = 3).
Proof.
  intros st.
  destruct (C10_display_halves Seconds st) as (_ & _ & H1 & H2).
  split; [apply H1 | apply H2]; simpl; lia.
Defined.

(** The claim C10 as stated fails for a counter above 159: at 160 seconds
    the tens digit is 16, which sets bit 4 of [PORTC] and leaves 0 in the
    lower four bits. *)
Lemma C10_counterexample :
  well_typed st_seconds_160 = true
  /\ read PORTC (display_tens Seconds (display_ones Seconds st_seconds_160))
     = 0x10
  /\ Z.land
       (read PORTC (display_tens Seconds (display_ones Seconds st_seconds_160)))
       0xF0
     <> Z.land (read PORTC st_seconds_160) 0xF0
  /\ Z.land
       (read PORTC (display_tens Seconds (display_ones Seconds st_seconds_160)))
       0x0F
     <> g_seconds st_seconds_160 / 10.
Proof. repeat split; by vm_compute. Qed.

(** ** Concrete runs for the further properties *)

(** Closed side conditions on concrete states, by evaluation. *)
Ltac by_computation := vm_compute; intuition congruence.

(** X2: 125 seconds after 2:05:10 the clock shows 2:07:15. *)
Lemma X2_witness :
  counters (run (ticks_with_loop 125) st_10_5_2) = (15, 7, 2).
Proof.
  apply (X2_paced_ticks_keep_time st_10_5_2 125). by_computation.
Defined.

(** X4: two ticks in a row at 2:05:59, then three loop iterations. *)
Lemma X4_witness :
  counters
    (run ([EvTick; EvTick] ++ repeat EvLoop 3)
       {| g_seconds := 59; g_minutes := 5; g_hours := 2; io := ∅ |})
  = (61, 5, 2).
Proof.
  apply (X4_overrun_misses_carry
           {| g_seconds := 59; g_minutes := 5; g_hours := 2; io := ∅ |} 3);
    by_computation.
Defined.

(** X5: pause, loop, resume, loop at 2:05:10. *)
Lemma X5_witness :
  counters (run [EvPause; EvLoop; EvResume; EvLoop] st_10_5_2) = (10, 5, 2).
Proof.
  apply (X5_quiet_events_keep_counters st_10_5_2
           [EvPause; EvLoop; EvResume; EvLoop]); by_computation.
Defined.

(** X6: the same counters over different registers. *)
Lemma X6_witness :
  counters (run [EvTick; EvLoop; EvPause] st_10_5_2)
  = counters
      (run [EvTick; EvLoop; EvPause]
         {| g_seconds := 10; g_minutes := 5; g_hours := 2; io := ∅ |}).
Proof.
  apply (X6_counters_independent_of_registers st_10_5_2
           {| g_seconds := 10; g_minutes := 5; g_hours := 2; io := ∅ |}
           [EvTick; EvLoop; EvPause]).
  reflexivity.
Defined.

(** X7: resume leaves [WGM12] (bit 3) as it was. *)
Lemma X7_witness :
  Z.testbit (read TCCR1B (ISR_INT2_vect st_10_5_2)) 3
  = Z.testbit (read TCCR1B st_10_5_2) 3.
Proof.
  destruct (X7_resume_effect st_10_5_2) as (_ & _ & _ & _ & H & _).
  apply H; by_computation.
Defined.

(** X8: pause then resume on [TCCR1B] = 0x0D. *)
Lemma X8_witness :
  read TCCR1B (ISR_INT2_vect (ISR_INT1_vect st_10_5_2)) = 0x0D.
Proof.
  apply (proj1 (X8_pause_resume_round_trip st_10_5_2)); by_computation.
Defined.

(** X9: a tick, a pause, a loop iteration and a reset: the timer is
    stopped. *)
Lemma X9_witness :
  timer_running
    (run [EvTick; EvPause; EvLoop; EvReset] (startup (power_on ∅)))
  = false.
Proof.
  apply (X9_timer_runs_unless_paused ∅ [EvTick; EvPause; EvLoop; EvReset]).
  reflexivity.
Defined.

(** X10: [WGM12] after a pause and a loop iteration. *)
Lemma X10_witness :
  Z.testbit
    (read TCCR1B (run [EvPause; EvLoop] (startup (power_on ∅)))) 3
  = Z.testbit (read TCCR1B (startup (power_on ∅))) 3
  /\ Z.testbit
       (read TCCR1B (run [EvPause; EvLoop] (startup (power_on ∅)))) WGM12
     = true.
Proof.
  destruct (X10_timer_mode_bits_kept ∅ [EvPause; EvLoop]) as (_ & H1 & H2).
  split; [apply H1 | apply H2]; by_computation.
Defined.

(** X11 from the power-on state with all registers at 0. *)
Lemma X11_witness :
  timer_running (TIMER1_CTC_Init (power_on ∅)) = true
  /\ Z.testbit (read TCCR1B (TIMER1_CTC_Init (power_on ∅))) WGM12 = true
  /\ read TCNT1 (TIMER1_CTC_Init (power_on ∅)) = 0
  /\ read OCR1A (TIMER1_CTC_Init (power_on ∅)) = 976
  /\ Z.testbit (read TIMSK (TIMER1_CTC_Init (power_on ∅))) OCIE1A = true
  /\ Z.testbit (read TCCR1A (TIMER1_CTC_Init (power_on ∅))) FOC1A = true
  /\ counters (TIMER1_CTC_Init (power_on ∅)) = (0, 0, 0).
Proof.
  apply (X11_TIMER1_CTC_Init_effect (power_on ∅)); by_computation.
Defined.

(** X12 from the power-on state with all registers at 0. *)
Lemma X12_witness :
  Z.testbit (read GICR (main_init (power_on ∅))) INT0 = true
  /\ Z.testbit (read GICR (main_init (power_on ∅))) INT1 = true
  /\ Z.testbit (read GICR (main_init (power_on ∅))) INT2 = true.
Proof.
  apply (X12_main_init_setup (power_on ∅)). by_computation.
Defined.

(** X13: an iteration that carries 23:59:60 to 24:00:00 over a [PORTC]
    whose upper half holds 0xA. *)
Lemma X13_witness :
  let st := {| g_seconds := 60; g_minutes := 59; g_hours := 23;
               io := {[ PORTC := 0xA0 ]} |} in
  Z.testbit (read PORTA (main_loop_body st)) 6 = Z.testbit (read PORTA st) 6
  /\ read TCCR1B (main_loop_body st) = read TCCR1B st
  /\ Z.land (read PORTC (main_loop_body st)) 0xF0 = 0xA0
  /\ Z.land (read PORTC (main_loop_body st)) 0x0F = 2.
Proof.
  intros st.
  destruct (X13_main_loop_ports st) as (_ & H1 & H2 & H3).
  refine (conj (H1 6 _) (conj (H2 TCCR1B _ _) (H3 _))); by_computation.
Defined.

(** X14: 47 minutes show as the digits 7 and 4. *)
Lemma X14_witness :
  let st := {| g_seconds := 0; g_minutes := 47; g_hours := 0; io := ∅ |} in
  let ones := Z.land (read PORTC (display_ones Minutes st)) 0x0F in
  let tens := Z.land (read PORTC (display Minutes st)) 0x0F in
  0 <= ones <= 9 /\ 0 <= tens <= 9 /\ 10 * tens + ones = 47.
Proof.
  intros st.
  apply (X14_digits_encode_counter Minutes st). by_computation.
Defined.

(** X15: a pause leaves [PORTA] alone, a tick leaves [TCCR1B] alone. *)
Lemma X15_witness :
  read PORTA (step EvPause st_positions_2_to_5) = read PORTA st_positions_2_to_5
  /\ read TCCR1B (step EvTick st_10_5_2) = read TCCR1B st_10_5_2.
Proof.
  split.
  - apply (proj1 (X15_interrupts_frame EvPause st_positions_2_to_5
                    ltac:(discriminate)) PORTA); discriminate.
  - apply (proj2 (X15_interrupts_frame EvTick st_10_5_2
                    ltac:(discriminate))); discriminate.
Defined.

(** X17 at 2:05:10 with the timer as [TIMER1_CTC_Init] sets it. *)
Lemma X17_witness :
  timer_running (ISR_INT1_vect st_10_5_2) = false
  /\ forall n : nat,
       Nat.iter n timer_period (ISR_INT1_vect st_10_5_2)
       = ISR_INT1_vect st_10_5_2.
Proof.
  apply (proj1 (X17_pause_effect st_10_5_2)). reflexivity.
Defined.
